(** * The apkeep downloader ([src/downloader/apkeep.py])

    A shallow embedding of the class [Apkeep]: the private method
    [_run_apkeep] and the two entry points [specific_version] and
    [latest_version], together with the small part of the Python runtime
    they call (text, [pathlib] pure paths, a tree-shaped file system,
    [zipfile] archives, the child process and the logger).

    Modelling choices:
    - a Python [str] is a list of Unicode code points, [bytes] a list of
      byte values;
    - the file system holds regular files and directories only; it answers
      every query (no permission or I/O error), and a path component is
      looked up by name ([..] is a name like any other, it is not resolved);
    - the external tool [apkeep] is an oracle: given its argument list and
      the file system it finds, it yields an exit status, its two output
      streams and the file system it leaves behind;
    - everything the method does to the outside world is recorded, in
      order, in a trace of events;
    - [config.env.str] yields a string for every name, the tool can
      always be started, and the seconds it took reach the log message
      as a text that the host supplies. *)

From Stdlib Require Import List ZArith NArith Bool Lia String Ascii.
From Stdlib Require Import DecimalString Permutation.
Import ListNotations.

Local Open Scope list_scope.

(* ================================================================== *)
(** ** Text *)
(* ================================================================== *)

Module Text.

(** A Python [str]: its code points, in order. *)
Definition pystr := list N.

(** A Python [bytes] object. *)
Definition pybytes := list N.

(** The [str] written by an ASCII literal of the source. *)
Definition py (s : string) : pystr :=
  map N_of_ascii (list_ascii_of_string s).

Fixpoint str_eqb (a b : pystr) : bool :=
  match a, b with
  | [], [] => true
  | x :: a', y :: b' => N.eqb x y && str_eqb a' b'
  | _, _ => false
  end.

(** Truthiness of a [str]: [not s] holds for the empty string only. *)
Definition truthy (s : list N) : bool :=
  match s with [] => false | _ :: _ => true end.

(** [needle in hay]. *)
Definition contains (needle hay : pystr) : Prop :=
  exists pre post, hay = pre ++ needle ++ post.

Fixpoint starts_with (p s : pystr) : bool :=
  match p, s with
  | [], _ => true
  | x :: p', y :: s' => N.eqb x y && starts_with p' s'
  | _ :: _, [] => false
  end.

Fixpoint containsb (needle hay : pystr) : bool :=
  starts_with needle hay ||
  match hay with
  | [] => false
  | _ :: hay' => containsb needle hay'
  end.

(** [str(n)] for an [int]: decimal digits, with a leading minus sign for
    a negative number. *)
Definition str_of_int (n : Z) : pystr :=
  py (NilZero.string_of_int (Z.to_int n)).

(** *** [bytes.decode(errors="replace")]

    The default codec is UTF-8.  The decoder is written as a machine that
    is fed one byte at a time: [need] continuation bytes are still
    expected, the next of which must lie in [lo..hi]; an ill-formed
    sequence yields one U+FFFD and the offending byte is looked at again
    as the start of a new sequence. *)

Local Open Scope N_scope.

Definition REPLACEMENT : N := 65533.

Record dstate := mkD {
  acc  : N;     (* code point being assembled *)
  need : nat;   (* continuation bytes still expected *)
  lo   : N;     (* bounds for the next continuation byte *)
  hi   : N
}.

Definition d0 : dstate := mkD 0 0 128 191.

(** A byte met when no sequence is open. *)
Definition dstart (b : N) : dstate * list N :=
  if b <? 128 then (d0, [b])
  else if b <? 194 then (d0, [REPLACEMENT])
  else if b <? 224 then (mkD (b - 192) 1 128 191, [])
  else if b <? 240 then
    (mkD (b - 224) 2 (if b =? 224 then 160 else 128)
                      (if b =? 237 then 159 else 191), [])
  else if b <? 245 then
    (mkD (b - 240) 3 (if b =? 240 then 144 else 128)
                      (if b =? 244 then 143 else 191), [])
  else (d0, [REPLACEMENT]).

Definition dstep (st : dstate) (b : N) : dstate * list N :=
  match need st with
  | O => dstart b
  | S k =>
      if (lo st <=? b) && (b <=? hi st) then
        let c := acc st * 64 + (b - 128) in
        match k with
        | O => (d0, [c])
        | S _ => (mkD c k 128 191, [])
        end
      else
        let '(st', out) := dstart b in (st', REPLACEMENT :: out)
  end.

Fixpoint drun (st : dstate) (bs : pybytes) : pystr :=
  match bs with
  | [] => match need st with O => [] | S _ => [REPLACEMENT] end
  | b :: bs' => let '(st', out) := dstep st b in out ++ drun st' bs'
  end.

Definition decode_replace (bs : pybytes) : pystr := drun d0 bs.

(** *** [str.strip()] : white space, as [str.isspace] has it. *)
Definition isspace (c : N) : bool :=
  ((9 <=? c) && (c <=? 13)) || ((28 <=? c) && (c <=? 32)) ||
  (c =? 133) || (c =? 160) || (c =? 5760) ||
  ((8192 <=? c) && (c <=? 8202)) || (c =? 8232) || (c =? 8233) ||
  (c =? 8239) || (c =? 8287) || (c =? 12288).

Fixpoint lstrip (s : pystr) : pystr :=
  match s with
  | c :: s' => if isspace c then lstrip s' else s
  | [] => []
  end.

Definition rstrip (s : pystr) : pystr := rev (lstrip (rev s)).

Definition strip (s : pystr) : pystr := rstrip (lstrip s).

(** [sep.join(parts)]. *)
Fixpoint join (sep : pystr) (parts : list pystr) : pystr :=
  match parts with
  | [] => []
  | [p] => p
  | p :: rest => p ++ sep ++ join sep rest
  end.

(** [s.split(c)] for a one-character separator: the fields between the
    occurrences of [c], empty fields included. *)
Fixpoint split_on (c : N) (s : pystr) : list pystr :=
  match s with
  | [] => [[]]
  | x :: s' =>
      match split_on c s' with
      | [] => [[]]                       (* never: the result is non-empty *)
      | f :: fs => if N.eqb x c then [] :: f :: fs else (x :: f) :: fs
      end
  end.

End Text.
Import Text.

(* ================================================================== *)
(** ** [pathlib]: pure POSIX paths *)
(* ================================================================== *)

Module Pathlib.

(** A path: its anchor (the empty string for a relative path, ["/"], or
    ["//"] for exactly two leading slashes) and its components. *)
Record Path := mkPath { anchor : pystr; parts : list pystr }.

Definition SEP : N := 47.

Definition splitroot (s : pystr) : pystr :=
  match s with
  | 47 :: 47 :: 47 :: _ => py "/"
  | 47 :: 47 :: _ => py "//"
  | 47 :: _ => py "/"
  | _ => []
  end%N.

(** Empty components and ["."] are dropped when a string is parsed. *)
Definition keep_part (x : pystr) : bool :=
  truthy x && negb (str_eqb x (py ".")).

Definition parse (s : pystr) : Path :=
  mkPath (splitroot s) (filter keep_part (split_on SEP s)).

(** [self / key]: an anchored [key] replaces [self]. *)
Definition joinpath (self : Path) (key : pystr) : Path :=
  let k := parse key in
  if truthy (anchor k) then k
  else mkPath (anchor self) (parts self ++ parts k).

(** [self.name]: the last component, or the empty string. *)
Definition name (self : Path) : pystr := last (parts self) [].

(** [str(self)]. *)
Definition fspath (self : Path) : pystr :=
  match anchor self, parts self with
  | [], [] => py "."
  | a, ps => a ++ join (py "/") ps
  end.

Fixpoint strip_prefix (pre l : list pystr) : option (list pystr) :=
  match pre, l with
  | [], _ => Some l
  | x :: pre', y :: l' => if str_eqb x y then strip_prefix pre' l' else None
  | _ :: _, [] => None
  end.

(** [self.relative_to(other)]; [None] stands for the [ValueError]. *)
Definition relative_to (self other : Path) : option Path :=
  if str_eqb (anchor self) (anchor other) then
    match strip_prefix (parts other) (parts self) with
    | Some rest => Some (mkPath [] rest)
    | None => None
    end
  else None.

End Pathlib.
Import Pathlib.

(* ================================================================== *)
(** ** The file system and [zipfile] archives *)
(* ================================================================== *)

Module FS.

Set Warnings "-register-all".

Inductive Compression := ZIP_STORED | ZIP_DEFLATED.

(** The content of a regular file: plain bytes, or a zip archive given by
    its compression method and its members in the order they were
    written.  A member is a directory entry or a file with its content. *)
Inductive FileData :=
  | Bytes (b : pybytes)
  | Archive (method : Compression) (members : list (pystr * Member))
with Member :=
  | DirMember
  | FileMember (d : FileData).

Inductive Node :=
  | File (d : FileData)
  | Dir (children : list (pystr * Node)).

Fixpoint find (nm : pystr) (ch : list (pystr * Node)) : option Node :=
  match ch with
  | [] => None
  | (k, v) :: rest => if str_eqb k nm then Some v else find nm rest
  end.

(** Bind [nm] to [v]: in place when [nm] is already there, at the end
    otherwise. *)
Fixpoint bind_child (nm : pystr) (v : Node) (ch : list (pystr * Node))
  : list (pystr * Node) :=
  match ch with
  | [] => [(nm, v)]
  | (k, x) :: rest =>
      if str_eqb k nm then (k, v) :: rest else (k, x) :: bind_child nm v rest
  end.

(** The node reached from [n] along the components [ps]. *)
Fixpoint walk (n : Node) (ps : list pystr) : option Node :=
  match ps with
  | [] => Some n
  | p :: ps' =>
      match n with
      | Dir ch =>
          match find p ch with
          | Some c => walk c ps'
          | None => None
          end
      | File _ => None
      end
  end.

(** Create or overwrite the regular file at [ps] with content [d].
    [None]: the parent is missing or is not a directory, or a directory
    stands at [ps]. *)
Fixpoint put (ps : list pystr) (d : FileData) (n : Node) : option Node :=
  match ps, n with
  | [], _ => None
  | _, File _ => None
  | [p], Dir ch =>
      match find p ch with
      | Some (Dir _) => None
      | _ => Some (Dir (bind_child p (File d) ch))
      end
  | p :: ps', Dir ch =>
      match find p ch with
      | Some c =>
          match put ps' d c with
          | Some c' => Some (Dir (bind_child p c' ch))
          | None => None
          end
      | None => None
      end
  end.

Definition under (nm : pystr) (x : list pystr * Node) : list pystr * Node :=
  (nm :: fst x, snd x).

(** What [rglob("*")] finds below a node: every entry of the directory
    itself (files and sub-directories alike, dot files included), then,
    sub-directory after sub-directory, what it finds below each.  Paths
    are relative to the node. *)
Fixpoint rglob_node (n : Node) : list (list pystr * Node) :=
  match n with
  | File _ => []
  | Dir ch =>
      map (fun kv => ([fst kv], snd kv)) ch ++
      flat_map (fun kv => map (under (fst kv)) (rglob_node (snd kv))) ch
  end.

(** The regular files below a node, at any depth, with their paths
    relative to the node and their contents. *)
Fixpoint files_of (n : Node) : list (list pystr * FileData) :=
  match n with
  | File _ => []
  | Dir ch =>
      flat_map (fun kv =>
        match snd kv with
        | File d => [([fst kv], d)]
        | Dir _ => map (fun x => (fst kv :: fst x, snd x)) (files_of (snd kv))
        end) ch
  end.

(** The sub-directories below a node, at any depth. *)
Fixpoint dirs_of (n : Node) : list (list pystr) :=
  match n with
  | File _ => []
  | Dir ch =>
      flat_map (fun kv =>
        match snd kv with
        | File _ => []
        | Dir _ => [fst kv] :: map (cons (fst kv)) (dirs_of (snd kv))
        end) ch
  end.

Fixpoint names_once (l : list pystr) : bool :=
  match l with
  | [] => true
  | k :: rest => negb (existsb (str_eqb k) rest) && names_once rest
  end.

(** No two entries of a directory share a name, at any depth. *)
Fixpoint unique_names (n : Node) : bool :=
  match n with
  | File _ => true
  | Dir ch =>
      names_once (map fst ch) && forallb (fun kv => unique_names (snd kv)) ch
  end.

Definition is_dir_node (n : Node) : bool :=
  match n with File _ => false | Dir _ => true end.

End FS.
Import FS.

(* ================================================================== *)
(** ** The world: file system, child process, logger *)
(* ================================================================== *)

Inductive Level := INFO | WARNING.

(** What the code does to its surroundings, one event per call. *)
Inductive Event :=
  | EvExists (p : Path)                           (* Path.exists()       *)
  | EvIsDir (p : Path)                            (* Path.is_dir()       *)
  | EvSpawn (cmd : list pystr)                    (* Popen + communicate *)
  | EvLog (lvl : Level) (msg : pystr)             (* logger.info/warning *)
  | EvZipOpen (p : Path) (method : Compression)   (* ZipFile(p, "w", m)  *)
  | EvRglob (p : Path)                            (* Path.rglob("*")     *)
  | EvZipWrite (file : Path) (arcname : pystr).   (* ZipFile.write       *)

(** A finished child process.  [elapsed] is the text of the wall-clock
    seconds the call took, as the format [.2f] prints them. *)
Record Completed := mkCompleted {
  returncode : Z;
  stdout : pybytes;
  stderr : pybytes;
  root_after : Node;
  elapsed : pystr
}.

(** The host: the working directory of the process, and the external
    tool, which sees its argument list and the file system. *)
Record Host := mkHost {
  cwd : list pystr;
  run_tool : list pystr -> Node -> Completed
}.

Record World := mkWorld { root : Node; trace : list Event }.

Inductive Exn :=
  | DownloadError (msg : pystr)
  | ValueError
  | OSError.

Inductive Result (A : Type) :=
  | Ok (a : A)
  | Raise (e : Exn).
Arguments Ok {A} a.
Arguments Raise {A} e.

(** Computations: they read and change the world and return or raise. *)
Definition M (A : Type) : Type := World -> Result A * World.

Definition ret {A} (a : A) : M A := fun w => (Ok a, w).

Definition raise {A} (e : Exn) : M A := fun w => (Raise e, w).

Definition bind {A B} (m : M A) (k : A -> M B) : M B :=
  fun w =>
    match m w with
    | (Ok a, w') => k a w'
    | (Raise e, w') => (Raise e, w')
    end.

Declare Scope monad_scope.
Delimit Scope monad_scope with monad.
Notation "x <- m ;; k" := (bind m (fun x => k))
  (at level 61, m at next level, right associativity) : monad_scope.
Notation "m ;; k" := (bind m (fun _ => k))
  (at level 61, right associativity) : monad_scope.
Local Open Scope monad_scope.

Definition emit (e : Event) : M unit :=
  fun w => (Ok tt, mkWorld (root w) (trace w ++ [e])).

Fixpoint for_each {A} (xs : list A) (body : A -> M unit) : M unit :=
  match xs with
  | [] => ret tt
  | x :: xs' => body x ;; for_each xs' body
  end.

Section Runtime.

Variable host : Host.

(** Where a path leads, from the root of the file system. *)
Definition resolve (p : Path) : list pystr :=
  if truthy (anchor p) then parts p else cwd host ++ parts p.

Definition stat (r : Node) (p : Path) : option Node := walk r (resolve p).

Definition present (r : Node) (p : Path) : bool :=
  match stat r p with Some _ => true | None => false end.

Definition dir_at (r : Node) (p : Path) : bool :=
  match stat r p with Some (Dir _) => true | _ => false end.

Definition path_exists (p : Path) : M bool :=
  emit (EvExists p) ;;
  fun w => (Ok (present (root w) p), w).

Definition path_is_dir (p : Path) : M bool :=
  emit (EvIsDir p) ;;
  fun w => (Ok (dir_at (root w) p), w).

(** [Popen(cmd, ...)] followed by [communicate()]: the tool runs to its
    end and leaves its file system behind. *)
Definition popen_communicate (cmd : list pystr) : M Completed :=
  emit (EvSpawn cmd) ;;
  fun w =>
    let c := run_tool host cmd (root w) in
    (Ok c, mkWorld (root_after c) (trace w)).

Definition logger_info (msg : pystr) : M unit := emit (EvLog INFO msg).

Definition logger_warning (msg : pystr) : M unit := emit (EvLog WARNING msg).

(** Replace the content of the file at [p]. *)
Definition write_file (p : Path) (d : FileData) : M unit :=
  fun w =>
    match put (resolve p) d (root w) with
    | Some r => (Ok tt, mkWorld r (trace w))
    | None => (Raise OSError, w)
    end.

(** [zipfile.ZipFile(p, "w", method)]: the file is created, or emptied. *)
Definition zip_open (p : Path) (method : Compression) : M unit :=
  emit (EvZipOpen p method) ;;
  write_file p (Archive method []).

(** [p.rglob("*")]: the paths below [p].  The generator is run to its
    end at once: the loop that consumes it writes to the archive only,
    which changes no name in any directory. *)
Definition rglob_star (p : Path) : M (list Path) :=
  emit (EvRglob p) ;;
  fun w =>
    (Ok (match stat (root w) p with
         | Some n =>
             map (fun x => mkPath (anchor p) (parts p ++ fst x)) (rglob_node n)
         | None => []
         end), w).

(** [zipf.write(file, arcname)] on the archive open at [zp]: a regular
    file is stored with its content under [arcname], a directory as an
    entry whose name ends with a slash.  The name is the text of the
    path [arcname]; [zipfile] normalises it first, which changes nothing
    for a relative path without [..]. *)
Definition zip_write (zp file : Path) (arcname : Path) : M unit :=
  emit (EvZipWrite file (fspath arcname)) ;;
  fun w =>
    match stat (root w) zp, stat (root w) file with
    | Some (File (Archive m es)), Some (File d) =>
        write_file zp (Archive m (es ++ [(fspath arcname, FileMember d)])) w
    | Some (File (Archive m es)), Some (Dir _) =>
        write_file zp (Archive m (es ++ [(fspath arcname ++ py "/", DirMember)])) w
    | _, _ => (Raise OSError, w)
    end.

End Runtime.

(* ================================================================== *)
(** ** The class [Apkeep] *)
(* ================================================================== *)

(** The configuration object: the environment, and the temporary folder
    as a path and as the name handed to the tool. *)
Record Config := mkConfig {
  env : pystr -> pystr;
  temp_folder : Path;
  temp_folder_name : pystr
}.

Record APP := mkAPP { package_name : pystr }.

Record Apkeep := mkApkeep { config : Config }.

Section Apkeep.

Variable host : Host.

Definition file_name_of (package_name : pystr) : pystr :=
  package_name ++ py ".apk".

Definition file_path_of (self : Apkeep) (package_name : pystr) : Path :=
  joinpath (temp_folder (config self)) (file_name_of package_name).

Definition folder_path_of (self : Apkeep) (package_name : pystr) : Path :=
  joinpath (temp_folder (config self)) package_name.

Definition zip_path_of (self : Apkeep) (package_name : pystr) : Path :=
  joinpath (temp_folder (config self)) (package_name ++ py ".zip").

Definition cmd_of (self : Apkeep) (package_name email token : pystr)
  : list pystr :=
  [ py "apkeep";
    py "-a"; package_name;
    py "-d"; py "google-play";
    py "-e"; email;
    py "-t"; token;
    py "-o"; py "split_apk=true";
    temp_folder_name (config self) ].

Definition err_output_of (stderr : pybytes) : pystr :=
  if truthy stderr then strip (decode_replace stderr) else py "no details".

Definition failed_msg (rc : Z) (package_name err_output : pystr) : pystr :=
  py "apkeep failed with exit code " ++ str_of_int rc ++ py " for " ++
  package_name ++ py ": " ++ err_output.

Definition completed_msg (package_name elapsed : pystr) : pystr :=
  py "apkeep completed for " ++ package_name ++ py " in " ++ elapsed ++
  py " seconds.".

Definition not_found_msg (file_path folder_path : Path) : pystr :=
  py "APK not found after apkeep. Expected " ++ fspath file_path ++
  py " or " ++ fspath folder_path.

Definition credentials_msg : pystr :=
  py "APKEEP_EMAIL and APKEEP_TOKEN must be set in environment.".

(** The body of the [with zipfile.ZipFile(...)] block. *)
Definition pack_folder (self : Apkeep) (folder_path zip_path : Path) : M unit :=
  zip_open host zip_path ZIP_DEFLATED ;;
  files <- rglob_star host folder_path ;;
  for_each files (fun file =>
    match relative_to file (temp_folder (config self)) with
    | Some arcname => zip_write host zip_path file arcname
    | None => raise ValueError
    end).

Definition _run_apkeep (self : Apkeep) (package_name : pystr) : M pystr :=
  let email := env (config self) (py "APKEEP_EMAIL") in
  let token := env (config self) (py "APKEEP_TOKEN") in
  if negb (truthy email) || negb (truthy token) then
    raise (DownloadError credentials_msg)
  else
    let file_name := file_name_of package_name in
    let file_path := file_path_of self package_name in
    let folder_path := folder_path_of self package_name in
    let zip_path := zip_path_of self package_name in
    b <- path_exists host file_path ;;
    if b then ret file_name else
    b <- path_exists host zip_path ;;
    if b then ret (name zip_path) else
    let cmd := cmd_of self package_name email token in
    process <- popen_communicate host cmd ;;
    if negb (returncode process =? 0)%Z then
      let err_output := err_output_of (stderr process) in
      raise (DownloadError (failed_msg (returncode process) package_name err_output))
    else
      logger_info (completed_msg package_name (elapsed process)) ;;
      b <- path_exists host file_path ;;
      if b then ret file_name else
      b <- path_exists host folder_path ;;
      b <- (if b then path_is_dir host folder_path else ret false) ;;
      if b then
        pack_folder self folder_path zip_path ;;
        ret (name zip_path)
      else
        raise (DownloadError (not_found_msg file_path folder_path)).

Definition pinning_msg (package_name version : pystr) : pystr :=
  py "apkeep with Google Play does not support specific versions. " ++
  py "Requested " ++ package_name ++ py "@" ++ version ++
  py ", downloading latest instead.".

Definition specific_version (self : Apkeep) (app : APP) (version : pystr)
  : M (pystr * pystr) :=
  logger_warning (pinning_msg (package_name app) version) ;;
  file_name <- _run_apkeep self (package_name app) ;;
  ret (file_name, py "apkeep://google-play/" ++ package_name app).

Definition latest_version (self : Apkeep) (app : APP) : M (pystr * pystr) :=
  file_name <- _run_apkeep self (package_name app) ;;
  ret (file_name, py "apkeep://google-play/" ++ package_name app).

End Apkeep.

(* ================================================================== *)
(** ** Observations used by the statements *)
(* ================================================================== *)

(** What a path shows without looking below it: nothing, a directory,
    or a regular file with its content. *)
Inductive Seen := Absent | IsDir | IsFile (d : FileData).

Definition seen (o : option Node) : Seen :=
  match o with
  | None => Absent
  | Some (Dir _) => IsDir
  | Some (File d) => IsFile d
  end.

Definition is_warning (e : Event) : bool :=
  match e with EvLog WARNING _ => true | _ => false end.

Definition is_spawn (e : Event) : bool :=
  match e with EvSpawn _ => true | _ => false end.

(** The events by which the code itself writes to the file system. *)
Definition is_write (e : Event) : bool :=
  match e with EvZipOpen _ _ | EvZipWrite _ _ => true | _ => false end.

(** A package identifier that is one path component: not empty, without
    a separator, and neither [.] nor [..]. *)
Definition plain_name (s : pystr) : bool :=
  truthy s && negb (existsb (N.eqb SEP) s) &&
  negb (str_eqb s (py ".")) && negb (str_eqb s (py "..")).

(** The archive member written for an entry found below the package
    folder, [rel] being its path relative to that folder. *)
Definition arcname_of (package_name : pystr) (rel : list pystr) : pystr :=
  join (py "/") (package_name :: rel).

Definition file_member (package_name : pystr) (x : list pystr * FileData)
  : pystr * Member :=
  (arcname_of package_name (fst x), FileMember (snd x)).

Definition dir_member (package_name : pystr) (rel : list pystr)
  : pystr * Member :=
  (arcname_of package_name rel ++ py "/", DirMember).

Definition member_of (package_name : pystr) (x : list pystr * Node)
  : pystr * Member :=
  match snd x with
  | File d => file_member package_name (fst x, d)
  | Dir _ => dir_member package_name (fst x)
  end.

Definition is_file_member (m : pystr * Member) : bool :=
  match snd m with FileMember _ => true | DirMember => false end.

Definition email_of (self : Apkeep) : pystr :=
  env (config self) (py "APKEEP_EMAIL").

Definition token_of (self : Apkeep) : pystr :=
  env (config self) (py "APKEEP_TOKEN").

(** The run of the tool that a call for [package_name] starts on the
    file system [r]. *)
Definition tool_run (host : Host) (self : Apkeep) (package_name : pystr)
           (r : Node) : Completed :=
  run_tool host
    (cmd_of self package_name (email_of self) (token_of self)) r.

(** The world in which the tool has run, after a look at the file path
    and at the archive path. *)
Definition spawned (host : Host) (self : Apkeep) (package_name : pystr)
           (w : World) : World :=
  mkWorld (root_after (tool_run host self package_name (root w)))
          (trace w ++
           [EvExists (file_path_of self package_name);
            EvExists (zip_path_of self package_name);
            EvSpawn (cmd_of self package_name (email_of self) (token_of self))]).

(** A computation whose result and whose effect on the file system do
    not depend on the trace. *)
Definition blind {A} (m : M A) : Prop :=
  forall w1 w2, root w1 = root w2 ->
    fst (m w1) = fst (m w2) /\ root (snd (m w1)) = root (snd (m w2)).

(** The world with further events in its trace. *)
Definition logged (w : World) (evs : list Event) : World :=
  mkWorld (root w) (trace w ++ evs).

(** [n'] differs from [n] at the path [ps] at most: every other path
    shows what it showed, what is a directory in [n] is one in [n'], and
    what stands beside [ps] in its directory is the same node, with all
    that lies below it. *)
Definition frame_at (ps : list pystr) (n n' : Node) : Prop :=
  (forall qs, qs <> ps -> seen (walk n' qs) = seen (walk n qs)) /\
  (forall qs, seen (walk n qs) = IsDir -> seen (walk n' qs) = IsDir) /\
  (forall c a b r, ps = c ++ [a] -> a <> b ->
     walk n' (c ++ b :: r) = walk n (c ++ b :: r)).

(** The events of the packing loop. *)
Definition is_pack_event (e : Event) : bool :=
  match e with
  | EvZipOpen _ _ | EvRglob _ | EvZipWrite _ _ => true
  | _ => false
  end.

(** A step that leaves the file system alone but at the path [zp], and
    adds only events of the packing loop to the trace. *)
Definition packs (host : Host) (zp : Path) (w w' : World) : Prop :=
  frame_at (resolve host zp) (root w) (root w') /\
  exists evs, trace w' = trace w ++ evs /\ forallb is_pack_event evs = true.

(** The members written for the entries found below a node, whatever
    the function [g] that names them: those of its files and those of
    its sub-directories. *)
Definition member_with (g : list pystr -> pystr) (x : list pystr * Node)
  : pystr * Member :=
  match snd x with
  | File d => (g (fst x), FileMember d)
  | Dir _ => (g (fst x) ++ py "/", DirMember)
  end.

(** *** Induction on nodes, through the entries of a directory *)
Section NodeInduction.

Variable P : Node -> Prop.
Hypothesis P_file : forall d, P (File d).
Hypothesis P_dir : forall ch, Forall (fun kv => P (snd kv)) ch -> P (Dir ch).

Fixpoint Node_induction (n : Node) : P n :=
  match n with
  | File d => P_file d
  | Dir ch =>
      P_dir ch
        ((fix all (l : list (pystr * Node)) : Forall (fun kv => P (snd kv)) l :=
            match l with
            | [] => Forall_nil _
            | kv :: rest => Forall_cons kv (Node_induction (snd kv)) (all rest)
            end) ch)
  end.

End NodeInduction.

(** *** The paths through [_run_apkeep] *)

(** The tool is started: both credentials are set and neither the file
    nor the archive is there. *)
Definition cache_miss (host : Host) (self : Apkeep) (pkg : pystr)
           (w : World) : Prop :=
  truthy (email_of self) = true /\ truthy (token_of self) = true /\
  present host (root w) (file_path_of self pkg) = false /\
  present host (root w) (zip_path_of self pkg) = false.

Inductive path_taken (host : Host) (self : Apkeep) (pkg : pystr) (w : World)
  : Result pystr * World -> Prop :=
  | NoCredentials :
      truthy (email_of self) = false \/ truthy (token_of self) = false ->
      path_taken host self pkg w (Raise (DownloadError credentials_msg), w)
  | CachedFile :
      path_taken host self pkg w
        (Ok (file_name_of pkg), logged w [EvExists (file_path_of self pkg)])
  | CachedArchive :
      path_taken host self pkg w
        (Ok (name (zip_path_of self pkg)),
         logged w [EvExists (file_path_of self pkg);
                   EvExists (zip_path_of self pkg)])
  | ToolFailed :
      cache_miss host self pkg w ->
      returncode (tool_run host self pkg (root w)) <> 0%Z ->
      path_taken host self pkg w
        (Raise (DownloadError
                  (failed_msg (returncode (tool_run host self pkg (root w))) pkg
                     (err_output_of (stderr (tool_run host self pkg (root w)))))),
         spawned host self pkg w)
  | SingleFile :
      cache_miss host self pkg w ->
      path_taken host self pkg w
        (Ok (file_name_of pkg),
         logged (spawned host self pkg w)
           [EvLog INFO (completed_msg pkg
                          (elapsed (tool_run host self pkg (root w))));
            EvExists (file_path_of self pkg)])
  | NotFound :
      cache_miss host self pkg w ->
      path_taken host self pkg w
        (Raise (DownloadError
                  (not_found_msg (file_path_of self pkg) (folder_path_of self pkg))),
         logged (spawned host self pkg w)
           ([EvLog INFO (completed_msg pkg
                           (elapsed (tool_run host self pkg (root w))));
             EvExists (file_path_of self pkg);
             EvExists (folder_path_of self pkg)] ++
            if present host (root_after (tool_run host self pkg (root w)))
                       (folder_path_of self pkg)
            then [EvIsDir (folder_path_of self pkg)] else []))
  | Packed :
      cache_miss host self pkg w ->
      path_taken host self pkg w
        ((pack_folder host self (folder_path_of self pkg) (zip_path_of self pkg) ;;
          ret (name (zip_path_of self pkg)))%monad
           (logged (spawned host self pkg w)
              [EvLog INFO (completed_msg pkg
                             (elapsed (tool_run host self pkg (root w))));
               EvExists (file_path_of self pkg);
               EvExists (folder_path_of self pkg);
               EvIsDir (folder_path_of self pkg)])).

(** *** Further observations *)

(** The text of a package identifier after its last separator, and the
    components before it that a path keeps. *)
Definition leaf (package_name : pystr) : pystr :=
  last (split_on SEP package_name) [].

Definition stem_parts (package_name : pystr) : list pystr :=
  filter keep_part (removelast (split_on SEP package_name)).

(** Where the three paths of a package identifier branch off: below the
    temporary folder, or below the root for an anchored identifier. *)
Definition stem (host : Host) (self : Apkeep) (package_name : pystr)
  : list pystr :=
  if truthy (splitroot package_name) then stem_parts package_name
  else resolve host (temp_folder (config self)) ++ stem_parts package_name.

Definition is_info (e : Event) : bool :=
  match e with EvLog INFO _ => true | _ => false end.

(** The test that decides whether the tool is started. *)
Definition cache_missb (host : Host) (self : Apkeep) (pkg : pystr)
           (w : World) : bool :=
  truthy (email_of self) && truthy (token_of self) &&
  negb (present host (root w) (file_path_of self pkg)) &&
  negb (present host (root w) (zip_path_of self pkg)).

(** The seven paths again, each with the tests that select it. *)
Inductive outcome (host : Host) (self : Apkeep) (pkg : pystr) (w : World)
  : Result pystr * World -> Prop :=
  | OutNoCredentials :
      truthy (email_of self) = false \/ truthy (token_of self) = false ->
      outcome host self pkg w (Raise (DownloadError credentials_msg), w)
  | OutCachedFile :
      truthy (email_of self) = true -> truthy (token_of self) = true ->
      present host (root w) (file_path_of self pkg) = true ->
      outcome host self pkg w
        (Ok (file_name_of pkg), logged w [EvExists (file_path_of self pkg)])
  | OutCachedArchive :
      truthy (email_of self) = true -> truthy (token_of self) = true ->
      present host (root w) (file_path_of self pkg) = false ->
      present host (root w) (zip_path_of self pkg) = true ->
      outcome host self pkg w
        (Ok (name (zip_path_of self pkg)),
         logged w [EvExists (file_path_of self pkg);
                   EvExists (zip_path_of self pkg)])
  | OutToolFailed :
      cache_miss host self pkg w ->
      returncode (tool_run host self pkg (root w)) <> 0%Z ->
      outcome host self pkg w
        (Raise (DownloadError
                  (failed_msg (returncode (tool_run host self pkg (root w))) pkg
                     (err_output_of (stderr (tool_run host self pkg (root w)))))),
         spawned host self pkg w)
  | OutSingleFile :
      cache_miss host self pkg w ->
      returncode (tool_run host self pkg (root w)) = 0%Z ->
      present host (root_after (tool_run host self pkg (root w)))
        (file_path_of self pkg) = true ->
      outcome host self pkg w
        (Ok (file_name_of pkg),
         logged (spawned host self pkg w)
           [EvLog INFO (completed_msg pkg
                          (elapsed (tool_run host self pkg (root w))));
            EvExists (file_path_of self pkg)])
  | OutNotFound :
      cache_miss host self pkg w ->
      returncode (tool_run host self pkg (root w)) = 0%Z ->
      present host (root_after (tool_run host self pkg (root w)))
        (file_path_of self pkg) = false ->
      dir_at host (root_after (tool_run host self pkg (root w)))
        (folder_path_of self pkg) = false ->
      outcome host self pkg w
        (Raise (DownloadError
                  (not_found_msg (file_path_of self pkg) (folder_path_of self pkg))),
         logged (spawned host self pkg w)
           ([EvLog INFO (completed_msg pkg
                           (elapsed (tool_run host self pkg (root w))));
             EvExists (file_path_of self pkg);
             EvExists (folder_path_of self pkg)] ++
            if present host (root_after (tool_run host self pkg (root w)))
                       (folder_path_of self pkg)
            then [EvIsDir (folder_path_of self pkg)] else []))
  | OutPacked :
      cache_miss host self pkg w ->
      returncode (tool_run host self pkg (root w)) = 0%Z ->
      present host (root_after (tool_run host self pkg (root w)))
        (file_path_of self pkg) = false ->
      dir_at host (root_after (tool_run host self pkg (root w)))
        (folder_path_of self pkg) = true ->
      outcome host self pkg w
        ((pack_folder host self (folder_path_of self pkg) (zip_path_of self pkg) ;;
          ret (name (zip_path_of self pkg)))%monad
           (logged (spawned host self pkg w)
              [EvLog INFO (completed_msg pkg
                             (elapsed (tool_run host self pkg (root w))));
               EvExists (file_path_of self pkg);
               EvExists (folder_path_of self pkg);
               EvIsDir (folder_path_of self pkg)])).

(* ================================================================== *)
(** ** Concrete configurations *)
(* ================================================================== *)

Module Fixtures.

Definition env_of (email token : pystr) (key : pystr) : pystr :=
  if str_eqb key (py "APKEEP_EMAIL") then email
  else if str_eqb key (py "APKEEP_TOKEN") then token
  else [].

Definition downloader (email token : pystr) : Apkeep :=
  mkApkeep (mkConfig (env_of email token) (parse (py "apks")) (py "apks")).

Definition me : Apkeep := downloader (py "me@example.org") (py "s3cret").

Definition pkg : pystr := py "com.example.app".

Definition app : APP := mkAPP pkg.

(** The working directory is [/srv]; [apks] lies in it. *)
Definition in_temp (ch : list (pystr * Node)) : Node :=
  Dir [(py "srv", Dir [(py "apks", Dir ch)])].

Definition apk_bytes : FileData := Bytes [80; 75; 3; 4]%N.

Definition empty_root : Node := in_temp [].

Definition apk_root : Node := in_temp [(py "com.example.app.apk", File apk_bytes)].

Definition zip_root : Node :=
  in_temp [(py "com.example.app.zip", File (Archive ZIP_DEFLATED []))].

(** A split download: two parts at the top and one in a sub-directory. *)
Definition split_folder : Node :=
  Dir [ (py "base.apk", File (Bytes [1]%N));
        (py "lib", Dir [(py "arm64.apk", File (Bytes [2]%N))]);
        (py "config.en.apk", File (Bytes [3]%N)) ].

Definition split_root : Node := in_temp [(pkg, split_folder)].

(** A tool that exits with [rc], writes [err] on its error stream and
    leaves the file system [after]. *)
Definition tool (rc : Z) (err : pybytes) (after : Node) : Host :=
  mkHost [py "srv"]
         (fun _ _ => mkCompleted rc [] err after (py "1.25")).

Definition start (r : Node) : World := mkWorld r [].

(** What a failing tool writes on its error stream: a line of text. *)
Definition boom_line : pybytes := py "boom" ++ [10%N].

(** An identifier with a separator in it, and the archive from an
    earlier run at the place it leads to. *)
Definition odd_pkg : pystr := py "a/b".

Definition odd_root : Node :=
  in_temp [(py "a", Dir [(py "b.zip", File (Archive ZIP_DEFLATED []))])].

(** The tool leaves the single file and the folder of parts as well. *)
Definition both_root : Node :=
  in_temp [(py "com.example.app.apk", File apk_bytes); (pkg, split_folder)].

(** A regular file where the folder of parts would be. *)
Definition file_as_folder_root : Node := in_temp [(pkg, File apk_bytes)].

(** A directory where the archive would be written. *)
Definition dir_as_archive_root : Node :=
  in_temp [(pkg, split_folder); (py "com.example.app.zip", Dir [])].

(** An identifier that starts with a separator, and its folder. *)
Definition anchored_pkg : pystr := py "/data/x".

Definition anchored_root : Node :=
  Dir [ (py "srv", Dir [(py "apks", Dir [])]);
        (py "data", Dir [(py "x", Dir [(py "base.apk", File (Bytes [1%N]))])]) ].

End Fixtures.

(* ================================================================== *)
(** ** The definitions at work *)
(* ================================================================== *)

Example str_of_int_pos : str_of_int 137 = py "137".
Proof. reflexivity. Qed.
Example str_of_int_neg : str_of_int (-9) = py "-9".
Proof. reflexivity. Qed.
Example str_of_int_zero : str_of_int 0 = py "0".
Proof. reflexivity. Qed.
Example decode_ascii : decode_replace (py "boom") = py "boom".
Proof. reflexivity. Qed.
(* b"\xe2\x82\xac" is the euro sign, b"\xff" and a cut sequence are replaced *)
Example decode_euro : decode_replace [226; 130; 172]%N = [8364]%N.
Proof. reflexivity. Qed.
Example decode_bad : decode_replace [97; 255; 98; 226; 130]%N = [97; 65533; 98; 65533]%N.
Proof. reflexivity. Qed.
Example decode_e0_80 : decode_replace [224; 128]%N = [65533; 65533]%N.
Proof. reflexivity. Qed.
Example strip_ex : strip (py "  a b " ++ [10%N]) = py "a b".
Proof. reflexivity. Qed.
Example split_ex : split_on 47 (py "a//b/") = [py "a"; []; py "b"; []].
Proof. reflexivity. Qed.
Example parse_ex : parse (py "a//./b/") = mkPath [] [py "a"; py "b"].
Proof. reflexivity. Qed.
Example parse_anchored : parse (py "//x") = mkPath (py "//") [py "x"].
Proof. reflexivity. Qed.
Example joinpath_ex :
  fspath (joinpath (parse (py "apks")) (py "com.example.app.zip")) =
  py "apks/com.example.app.zip".
Proof. reflexivity. Qed.
Example joinpath_anchored :
  joinpath (parse (py "apks")) (py "/x.apk") = mkPath (py "/") [py "x.apk"].
Proof. reflexivity. Qed.
Example rglob_ex :
  map fst (rglob_node Fixtures.split_folder) =
  [ [py "base.apk"]; [py "lib"]; [py "config.en.apk"]; [py "lib"; py "arm64.apk"] ].
Proof. reflexivity. Qed.
Example cached_ex :
  _run_apkeep (Fixtures.tool 0 [] Fixtures.apk_root) Fixtures.me Fixtures.pkg
    (Fixtures.start Fixtures.apk_root) =
  (Ok (py "com.example.app.apk"),
   mkWorld Fixtures.apk_root
     [EvExists (mkPath [] [py "apks"; py "com.example.app.apk"])]).
Proof. reflexivity. Qed.

(* ================================================================== *)
(** ** Facts about text *)
(* ================================================================== *)

Section TextFacts.

Lemma str_eqb_refl (a : pystr) : str_eqb a a = true.
Proof.
  induction a as [|x a IH]; simpl; [reflexivity|].
  now rewrite N.eqb_refl, IH.
Qed.

Lemma str_eqb_eq (a b : pystr) : str_eqb a b = true <-> a = b.
Proof.
  split.
  - revert b; induction a as [|x a IH]; intros [|y b] H; simpl in H;
      try discriminate; [reflexivity|].
    apply andb_true_iff in H as [Hx Hr].
    apply N.eqb_eq in Hx. apply IH in Hr. now subst.
  - intros ->. apply str_eqb_refl.
Qed.

Lemma str_eqb_neq (a b : pystr) : str_eqb a b = false <-> a <> b.
Proof.
  rewrite <- str_eqb_eq. destruct (str_eqb a b); split; congruence.
Qed.

Lemma truthy_app_r (a b : pystr) : truthy b = true -> truthy (a ++ b) = true.
Proof. destruct a; simpl; auto. Qed.

Lemma contains_here (pre x post : pystr) : contains x (pre ++ x ++ post).
Proof. now exists pre, post. Qed.

Lemma contains_end (pre x : pystr) : contains x (pre ++ x).
Proof. exists pre, []. now rewrite app_nil_r. Qed.

Lemma contains_skip (x pre s : pystr) : contains x s -> contains x (pre ++ s).
Proof.
  intros (a & b & ->). exists (pre ++ a), b. now rewrite app_assoc.
Qed.

Lemma contains_keep (x s post : pystr) : contains x s -> contains x (s ++ post).
Proof.
  intros (a & b & ->). exists a, (b ++ post). now rewrite <- !app_assoc.
Qed.

Lemma containsb_sound (x s : pystr) : containsb x s = true -> contains x s.
Proof.
  assert (SW : forall p t, starts_with p t = true -> exists r, t = p ++ r).
  { induction p as [|c p IH]; intros t H; simpl in H.
    - now exists t.
    - destruct t as [|d t]; [discriminate|].
      apply andb_true_iff in H as [Hc Hp]. apply N.eqb_eq in Hc. subst d.
      destruct (IH _ Hp) as [r ->]. now exists r. }
  induction s as [|c s IH]; simpl; intros H.
  - apply orb_true_iff in H as [H|H]; [|discriminate].
    destruct (SW _ _ H) as [r Hr]. exists [], r. exact Hr.
  - apply orb_true_iff in H as [H|H].
    + destruct (SW _ _ H) as [r Hr]. exists [], r. exact Hr.
    + destruct (IH H) as (a & b & ->). now exists (c :: a), b.
Qed.

End TextFacts.

(* ================================================================== *)
(** ** Facts about paths *)
(* ================================================================== *)

Section PathFacts.

Lemma split_on_no_sep (c : N) (s : pystr) :
  existsb (N.eqb c) s = false -> split_on c s = [s].
Proof.
  induction s as [|x s IH]; simpl; [reflexivity|].
  intros H. apply orb_false_iff in H as [Hx Hs].
  rewrite (IH Hs). rewrite N.eqb_sym in Hx. now rewrite Hx.
Qed.

Lemma existsb_sep_app (a b : pystr) :
  existsb (N.eqb SEP) (a ++ b) = existsb (N.eqb SEP) a || existsb (N.eqb SEP) b.
Proof. apply existsb_app. Qed.

Lemma splitroot_no_sep (s : pystr) :
  existsb (N.eqb SEP) s = false -> splitroot s = [].
Proof.
  destruct s as [|x s]; [reflexivity|]. simpl. intros H.
  apply orb_false_iff in H as [Hx _].
  unfold splitroot. destruct (N.eqb_spec SEP x) as [<-|Hne]; [discriminate|].
  unfold SEP in Hne.
  destruct x as [|p]; [reflexivity|].
  do 6 (destruct p as [p|p|]; try reflexivity). all: try (exfalso; apply Hne; reflexivity).
Qed.

Lemma parse_single (s : pystr) :
  existsb (N.eqb SEP) s = false -> truthy s = true -> s <> py "." ->
  parse s = mkPath [] [s].
Proof.
  intros Hs Ht Hd. unfold parse.
  rewrite (splitroot_no_sep _ Hs), (split_on_no_sep _ _ Hs). simpl.
  unfold keep_part. rewrite Ht.
  apply str_eqb_neq in Hd. now rewrite Hd.
Qed.

Lemma joinpath_single (t : Path) (s : pystr) :
  existsb (N.eqb SEP) s = false -> truthy s = true -> s <> py "." ->
  joinpath t s = mkPath (anchor t) (parts t ++ [s]).
Proof.
  intros Hs Ht Hd. unfold joinpath. now rewrite (parse_single _ Hs Ht Hd).
Qed.

(** A name with one of the two suffixes is a component of its own. *)
Lemma suffixed_single (t : Path) (s ext : pystr) :
  existsb (N.eqb SEP) s = false ->
  existsb (N.eqb SEP) ext = false -> (2 <= List.length ext)%nat ->
  joinpath t (s ++ ext) = mkPath (anchor t) (parts t ++ [s ++ ext]).
Proof.
  intros Hs He Hl. apply joinpath_single.
  - now rewrite existsb_sep_app, Hs, He.
  - apply truthy_app_r. destruct ext; [simpl in Hl; lia | reflexivity].
  - intros E. apply (f_equal (@List.length N)) in E.
    rewrite length_app in E. simpl in E. lia.
Qed.

Lemma plain_name_spec (s : pystr) :
  plain_name s = true ->
  existsb (N.eqb SEP) s = false /\ truthy s = true /\
  s <> py "." /\ s <> py "..".
Proof.
  unfold plain_name. intros H.
  apply andb_true_iff in H as [H H4]. apply andb_true_iff in H as [H H3].
  apply andb_true_iff in H as [H1 H2].
  apply negb_true_iff in H2, H3, H4.
  apply str_eqb_neq in H3, H4. auto.
Qed.

Lemma strip_prefix_app (p l : list pystr) : strip_prefix p (p ++ l) = Some l.
Proof.
  induction p as [|x p IH]; simpl; [reflexivity|].
  now rewrite str_eqb_refl.
Qed.

Lemma relative_to_below (a : pystr) (t r : list pystr) :
  relative_to (mkPath a (t ++ r)) (mkPath a t) = Some (mkPath [] r).
Proof.
  unfold relative_to. simpl. now rewrite str_eqb_refl, strip_prefix_app.
Qed.

Lemma last_snoc (l : list pystr) (x d : pystr) : last (l ++ [x]) d = x.
Proof. apply last_last. Qed.

End PathFacts.

(* ================================================================== *)
(** ** Facts about the file system *)
(* ================================================================== *)

Section FSFacts.

Lemma find_bind_same (k : pystr) (v : Node) (ch : list (pystr * Node)) :
  find k (bind_child k v ch) = Some v.
Proof.
  induction ch as [|[k' x] ch IH]; simpl.
  - now rewrite str_eqb_refl.
  - destruct (str_eqb k' k) eqn:E; simpl; rewrite E; [reflexivity | exact IH].
Qed.

Lemma find_bind_other (k k' : pystr) (v : Node) (ch : list (pystr * Node)) :
  k <> k' -> find k' (bind_child k v ch) = find k' ch.
Proof.
  intros Hne. induction ch as [|[j x] ch IH]; simpl.
  - destruct (str_eqb k k') eqn:E; [|reflexivity].
    apply str_eqb_eq in E. contradiction.
  - destruct (str_eqb j k) eqn:E; simpl.
    + apply str_eqb_eq in E. subst j.
      destruct (str_eqb k k') eqn:E'; [|reflexivity].
      apply str_eqb_eq in E'. contradiction.
    + now rewrite IH.
Qed.

Lemma walk_app (n : Node) (a b : list pystr) :
  walk n (a ++ b) =
  match walk n a with Some m => walk m b | None => None end.
Proof.
  revert n. induction a as [|x a IH]; intros n; simpl; [reflexivity|].
  destruct n as [d|ch]; [reflexivity|].
  destruct (find x ch); [apply IH | reflexivity].
Qed.

(** [put] unfolded one component at a time. *)
Lemma put_cons (p : pystr) (ps : list pystr) (d : FileData) (n : Node) :
  put (p :: ps) d n =
  match n with
  | File _ => None
  | Dir ch =>
      match ps with
      | [] =>
          match find p ch with
          | Some (Dir _) => None
          | _ => Some (Dir (bind_child p (File d) ch))
          end
      | _ :: _ =>
          match find p ch with
          | Some c =>
              match put ps d c with
              | Some c' => Some (Dir (bind_child p c' ch))
              | None => None
              end
          | None => None
          end
      end
  end.
Proof. destruct n, ps; reflexivity. Qed.

(** Writing a file changes what is seen at its own path only, and there
    it never replaces a directory. *)
Lemma put_seen (ps : list pystr) (d : FileData) :
  forall n n', put ps d n = Some n' ->
  forall qs,
    (qs = ps /\ seen (walk n qs) <> IsDir /\ walk n' qs = Some (File d)) \/
    (qs <> ps /\ seen (walk n' qs) = seen (walk n qs)).
Proof.
  induction ps as [|p ps IH]; intros n n' H qs; [discriminate|].
  rewrite put_cons in H. destruct n as [x|ch]; [discriminate|].
  destruct ps as [|p2 ps].
  - (* the file is an entry of this directory *)
    assert (Hn' : n' = Dir (bind_child p (File d) ch) /\
                  forall c, find p ch <> Some (Dir c)).
    { destruct (find p ch) as [[y|c]|]; inversion H; split; auto; congruence. }
    destruct Hn' as [-> Hnd]. clear H.
    destruct qs as [|q qs].
    + right. split; [discriminate | reflexivity].
    + destruct (str_eqb p q) eqn:E.
      * apply str_eqb_eq in E. subst q.
        destruct qs as [|q2 qs].
        -- left. split; [reflexivity|]. simpl. rewrite find_bind_same.
           split; [|reflexivity].
           destruct (find p ch) as [[y|c]|] eqn:F; simpl; try discriminate.
           exfalso. eapply Hnd. reflexivity.
        -- right. split; [discriminate|]. simpl. rewrite find_bind_same.
           destruct (find p ch) as [[y|c]|] eqn:F; simpl; try reflexivity.
           exfalso. eapply Hnd. reflexivity.
      * apply str_eqb_neq in E. right. split; [congruence|].
        simpl. now rewrite (find_bind_other _ _ _ _ E).
  - (* the file lies deeper *)
    destruct (find p ch) as [c|] eqn:F; [|discriminate].
    destruct (put (p2 :: ps) d c) as [c'|] eqn:P; [|discriminate].
    inversion H; subst n'; clear H.
    destruct qs as [|q qs].
    + right. split; [discriminate | reflexivity].
    + destruct (str_eqb p q) eqn:E.
      * apply str_eqb_eq in E. subst q.
        destruct (IH _ _ P qs) as [(Hq & Hd & Hw) | (Hq & Hs)].
        -- left. split; [now subst qs|]. simpl. rewrite find_bind_same, F.
           split; assumption.
        -- right. split; [congruence|]. simpl. now rewrite find_bind_same, F.
      * apply str_eqb_neq in E. right. split; [congruence|].
        simpl. now rewrite (find_bind_other _ _ _ _ E).
Qed.

(** A file can be written into a directory where no directory has its
    name. *)
Lemma put_ok (c : list pystr) (a : pystr) (d : FileData) :
  forall n ch, walk n c = Some (Dir ch) ->
  (forall x, find a ch <> Some (Dir x)) ->
  exists n', put (c ++ [a]) d n = Some n'.
Proof.
  induction c as [|p c IH]; intros n ch W Hnd; simpl in W.
  - inversion W; subst n. simpl.
    destruct (find a ch) as [[y|x]|] eqn:F; eauto.
    exfalso. eapply Hnd. reflexivity.
  - destruct n as [y|ch0]; [discriminate|].
    destruct (find p ch0) as [m|] eqn:F; [|discriminate].
    destruct (IH _ _ W Hnd) as [m' Hm'].
    simpl app. rewrite put_cons, F, Hm'.
    destruct (c ++ [a]) eqn:E; [now destruct c|]. eauto.
Qed.

(** What lies beside the file that is written stays as it is, with all
    that is below it. *)
Lemma put_beside (c : list pystr) (a b : pystr) (d : FileData) :
  a <> b ->
  forall n n' r, put (c ++ [a]) d n = Some n' ->
  walk n' (c ++ b :: r) = walk n (c ++ b :: r).
Proof.
  intros Hne. induction c as [|p c IH]; intros n n' r H.
  - simpl in H. destruct n as [y|ch]; [discriminate|].
    assert (n' = Dir (bind_child a (File d) ch)) as ->
      by (destruct (find a ch) as [[y|x]|]; now inversion H).
    simpl. now rewrite (find_bind_other _ _ _ _ Hne).
  - simpl app in H. rewrite put_cons in H.
    destruct n as [y|ch]; [discriminate|].
    destruct (c ++ [a]) as [|z zs] eqn:E; [now destruct c|].
    destruct (find p ch) as [m|] eqn:F; [|discriminate].
    destruct (put (z :: zs) d m) as [m'|] eqn:P; [|discriminate].
    inversion H; subst n'. simpl. rewrite find_bind_same, F.
    apply IH. exact P.
Qed.

Lemma put_here (ps : list pystr) (d : FileData) (n n' : Node) :
  put ps d n = Some n' -> walk n' ps = Some (File d).
Proof.
  intros H. destruct (put_seen _ _ _ _ H ps) as [(_ & _ & W) | (Hne & _)];
    [exact W | congruence].
Qed.

Lemma find_unique (k : pystr) (c : Node) (ch : list (pystr * Node)) :
  names_once (map fst ch) = true -> In (k, c) ch -> find k ch = Some c.
Proof.
  induction ch as [|[j x] ch IH]; simpl; intros U I; [contradiction|].
  apply andb_true_iff in U as [U1 U2]. apply negb_true_iff in U1.
  destruct I as [I|I].
  - inversion I; subst. now rewrite str_eqb_refl.
  - destruct (str_eqb j k) eqn:E; [|now apply IH].
    apply str_eqb_eq in E. subst j. exfalso.
    assert (existsb (str_eqb k) (map fst ch) = true); [|congruence].
    apply existsb_exists. exists k. split; [|apply str_eqb_refl].
    apply in_map_iff. now exists (k, c).
Qed.

(** Every entry found below a node is the node its path leads to. *)
Lemma rglob_node_walk (n : Node) :
  unique_names n = true ->
  forall rel m, In (rel, m) (rglob_node n) -> walk n rel = Some m.
Proof.
  induction n as [d|ch IH] using Node_induction; intros U rel m I;
    [contradiction|].
  simpl in U. apply andb_true_iff in U as [U1 U2].
  simpl in I. apply in_app_or in I as [I|I].
  - apply in_map_iff in I as ([k c] & E & I). inversion E; subst. simpl.
    now rewrite (find_unique _ _ _ U1 I).
  - apply in_flat_map in I as ([k c] & Ic & I). simpl in I.
    apply in_map_iff in I as ([rel' m'] & E & I).
    unfold under in E. simpl in E. inversion E; subst. simpl.
    rewrite (find_unique _ _ _ U1 Ic).
    rewrite Forall_forall in IH. apply (IH _ Ic); [|exact I].
    rewrite forallb_forall in U2. apply (U2 _ Ic).
Qed.

Lemma rglob_members (n : Node) :
  forall g : list pystr -> pystr,
  Permutation
    (map (member_with g) (rglob_node n))
    (map (fun x => (g (fst x), FileMember (snd x))) (files_of n) ++
     map (fun r => (g r ++ py "/", DirMember)) (dirs_of n)).
Proof.
  induction n as [d|ch IH] using Node_induction; intros g; [constructor|].
  simpl rglob_node. simpl files_of. simpl dirs_of.
  induction ch as [|[k c] ch IHch]; [constructor|].
  inversion IH as [|? ? IHc IHrest]; subst. specialize (IHch IHrest).
  clear IH IHrest. simpl in IHc.
  cbn [map flat_map app fst snd].
  rewrite !map_app in IHch. rewrite !map_app.
  destruct c as [d|ch'].
  - cbn [rglob_node map app member_with fst snd]. apply perm_skip. exact IHch.
  - specialize (IHc (fun r => g (k :: r))).
    rewrite !map_map. cbn [map app member_with fst snd under] in *.
    rewrite !map_map. rewrite ?map_map in IHch.
    apply Permutation_cons_app.
    etransitivity; [apply Permutation_app_swap_app|].
    etransitivity; [apply Permutation_app; [exact IHc | exact IHch]|].
    rewrite <- !app_assoc. apply Permutation_app_head.
    apply Permutation_app_swap_app.
Qed.

End FSFacts.

(* ================================================================== *)
(** ** Frames *)
(* ================================================================== *)

Section FrameFacts.

Lemma frame_at_refl (ps : list pystr) (n : Node) : frame_at ps n n.
Proof. repeat split; auto. Qed.

Lemma frame_at_trans (ps : list pystr) (a b c : Node) :
  frame_at ps a b -> frame_at ps b c -> frame_at ps a c.
Proof.
  intros (A1 & D1 & B1) (A2 & D2 & B2). split; [|split].
  - intros qs Hne. now rewrite A2, A1.
  - auto.
  - intros c0 x y r E Hne. now rewrite (B2 _ _ _ _ E Hne), (B1 _ _ _ _ E Hne).
Qed.

Lemma put_frame (ps : list pystr) (d : FileData) (n n' : Node) :
  put ps d n = Some n' -> frame_at ps n n'.
Proof.
  intros H. split; [|split].
  - intros qs Hne.
    destruct (put_seen _ _ _ _ H qs) as [(E & _) | (_ & S)]; [contradiction | exact S].
  - intros qs Hd.
    destruct (put_seen _ _ _ _ H qs) as [(_ & Hnd & _) | (_ & S)];
      [contradiction | congruence].
  - intros c a b r E Hne. subst ps. now apply put_beside with a d.
Qed.

End FrameFacts.

(* ================================================================== *)
(** ** The primitives of the runtime *)
(* ================================================================== *)

Section RuntimeFacts.

Variable host : Host.

Lemma packs_refl (zp : Path) (w : World) : packs host zp w w.
Proof.
  split; [apply frame_at_refl|]. exists []. now rewrite app_nil_r.
Qed.

Lemma packs_trans (zp : Path) (a b c : World) :
  packs host zp a b -> packs host zp b c -> packs host zp a c.
Proof.
  intros [F1 (e1 & T1 & P1)] [F2 (e2 & T2 & P2)]. split.
  - eapply frame_at_trans; eassumption.
  - exists (e1 ++ e2). rewrite T2, T1, <- app_assoc. split; [reflexivity|].
    now rewrite forallb_app, P1, P2.
Qed.

Lemma write_file_packs (zp : Path) (d : FileData) (w : World) :
  packs host zp w (snd (write_file host zp d w)).
Proof.
  unfold write_file. destruct (put (resolve host zp) d (root w)) eqn:P; simpl.
  - split; [now apply put_frame with d|]. exists []. now rewrite app_nil_r.
  - apply packs_refl.
Qed.

Lemma write_file_result (zp : Path) (d : FileData) (w : World) :
  fst (write_file host zp d w) = Ok tt \/
  fst (write_file host zp d w) = Raise OSError.
Proof.
  unfold write_file. destruct (put (resolve host zp) d (root w)); simpl; auto.
Qed.

Lemma emit_packs (zp : Path) (e : Event) (w : World) :
  is_pack_event e = true -> packs host zp w (snd (emit e w)).
Proof.
  intros H. split; [apply frame_at_refl|]. exists [e]. simpl. now rewrite H.
Qed.

Lemma zip_open_packs (zp : Path) (m : Compression) (w : World) :
  packs host zp w (snd (zip_open host zp m w)).
Proof.
  unfold zip_open, bind. simpl.
  eapply packs_trans; [apply (emit_packs zp (EvZipOpen zp m)); reflexivity|].
  apply write_file_packs.
Qed.

Lemma zip_open_result (zp : Path) (m : Compression) (w : World) :
  fst (zip_open host zp m w) = Ok tt \/
  fst (zip_open host zp m w) = Raise OSError.
Proof. unfold zip_open, bind. simpl. apply write_file_result. Qed.

Lemma zip_write_packs (zp file arc : Path) (w : World) :
  packs host zp w (snd (zip_write host zp file arc w)).
Proof.
  unfold zip_write, bind. simpl.
  eapply packs_trans;
    [apply (emit_packs zp (EvZipWrite file (fspath arc))); reflexivity|].
  simpl.
  destruct (stat host (root w) zp) as [[[b|m es]|c]|];
    try apply packs_refl.
  destruct (stat host (root w) file) as [[d|c]|];
    try apply packs_refl; apply write_file_packs.
Qed.

Lemma zip_write_result (zp file arc : Path) (w : World) :
  fst (zip_write host zp file arc w) = Ok tt \/
  fst (zip_write host zp file arc w) = Raise OSError.
Proof.
  unfold zip_write, bind. simpl.
  destruct (stat host (root w) zp) as [[[b|m es]|c]|]; simpl; auto.
  destruct (stat host (root w) file) as [[d|c]|]; simpl; auto;
    apply write_file_result.
Qed.

(** A loop keeps what each of its rounds keeps. *)
Lemma for_each_keeps {A} (R : World -> World -> Prop)
      (body : A -> M unit) :
  (forall w, R w w) ->
  (forall a b c, R a b -> R b c -> R a c) ->
  (forall x w, R w (snd (body x w))) ->
  forall xs w, R w (snd (for_each xs body w)).
Proof.
  intros Rrefl Rtrans Hbody xs. induction xs as [|x xs IH]; intros w; simpl.
  - apply Rrefl.
  - unfold bind. specialize (Hbody x w).
    destruct (body x w) as [[[]|e] w1]; simpl in *; [|exact Hbody].
    eapply Rtrans; [exact Hbody | apply IH].
Qed.

(** A loop raises what one of its rounds raises. *)
Lemma for_each_raises {A} (body : A -> M unit) (e : Exn) :
  forall xs w, fst (for_each xs body w) = Raise e ->
  exists x w0, fst (body x w0) = Raise e.
Proof.
  induction xs as [|x xs IH]; intros w; simpl; [discriminate|].
  unfold bind. destruct (body x w) as [[[]|e'] w1] eqn:B; simpl.
  - apply IH.
  - intros E. inversion E; subst. exists x, w. now rewrite B.
Qed.

End RuntimeFacts.

(* ================================================================== *)
(** ** The packing loop *)
(* ================================================================== *)

Section PackFacts.

Variable host : Host.
Variable self : Apkeep.

Lemma pack_folder_packs (folder zp : Path) (w : World) :
  packs host zp w (snd (pack_folder host self folder zp w)).
Proof.
  unfold pack_folder, bind.
  pose proof (zip_open_packs host zp ZIP_DEFLATED w) as H0.
  destruct (zip_open host zp ZIP_DEFLATED w) as [[[]|e] w1]; simpl in *;
    [|exact H0].
  eapply packs_trans; [exact H0|].
  eapply packs_trans;
    [apply (emit_packs host zp (EvRglob folder)); reflexivity|].
  simpl. apply for_each_keeps.
  - apply packs_refl.
  - apply packs_trans.
  - intros file w2.
    destruct (relative_to file (temp_folder (config self)));
      [apply zip_write_packs | apply packs_refl].
Qed.

(** The loop fails with [ValueError] or [OSError] only. *)
Lemma pack_folder_raises (folder zp : Path) (w : World) (e : Exn) :
  fst (pack_folder host self folder zp w) = Raise e ->
  e = ValueError \/ e = OSError.
Proof.
  unfold pack_folder, bind.
  destruct (zip_open_result host zp ZIP_DEFLATED w) as [H|H];
    destruct (zip_open host zp ZIP_DEFLATED w) as [[[]|e0] w1];
    simpl in *; try discriminate.
  - intros E. apply for_each_raises in E as (file & w0 & E).
    destruct (relative_to file (temp_folder (config self))).
    + destruct (zip_write_result host zp file p w0) as [R|R];
        rewrite R in E; [discriminate | inversion E; auto].
    + inversion E; auto.
  - intros E. inversion E; subst. inversion H; auto.
Qed.

End PackFacts.

(* ================================================================== *)
(** ** The paths through [_run_apkeep] *)
(* ================================================================== *)

Section RunFacts.

Variable host : Host.
Variable self : Apkeep.
Variable pkg : pystr.

Local Abbreviation file_name := (file_name_of pkg).
Local Abbreviation file_path := (file_path_of self pkg).
Local Abbreviation folder_path := (folder_path_of self pkg).
Local Abbreviation zip_path := (zip_path_of self pkg).
Local Abbreviation cmd := (cmd_of self pkg (email_of self) (token_of self)).

Ltac run_unfold :=
  unfold _run_apkeep, path_exists, path_is_dir, popen_communicate,
    logger_info, emit, ret, raise, bind;
  fold (email_of self); fold (token_of self);
  cbn [root trace fst snd].

Lemma run_no_credentials (w : World) :
  truthy (email_of self) = false \/ truthy (token_of self) = false ->
  _run_apkeep host self pkg w = (Raise (DownloadError credentials_msg), w).
Proof.
  intros H. run_unfold.
  destruct H as [-> | ->]; [reflexivity|].
  now rewrite orb_true_r.
Qed.

Lemma run_cached_file (w : World) :
  truthy (email_of self) = true -> truthy (token_of self) = true ->
  present host (root w) file_path = true ->
  _run_apkeep host self pkg w =
  (Ok file_name, logged w [EvExists file_path]).
Proof.
  intros He Ht Hf. run_unfold. rewrite He, Ht. cbn [negb orb].
  now rewrite Hf.
Qed.

Lemma run_cached_zip (w : World) :
  truthy (email_of self) = true -> truthy (token_of self) = true ->
  present host (root w) file_path = false ->
  present host (root w) zip_path = true ->
  _run_apkeep host self pkg w =
  (Ok (name zip_path), logged w [EvExists file_path; EvExists zip_path]).
Proof.
  intros He Ht Hf Hz. run_unfold. rewrite He, Ht. cbn [negb orb].
  rewrite Hf. cbn [root trace]. rewrite Hz. unfold logged.
  now rewrite <- app_assoc.
Qed.

Section Miss.

Variable w : World.
Hypothesis He : truthy (email_of self) = true.
Hypothesis Ht : truthy (token_of self) = true.
Hypothesis Hf : present host (root w) file_path = false.
Hypothesis Hz : present host (root w) zip_path = false.

Local Abbreviation done := (tool_run host self pkg (root w)).

Ltac run_miss :=
  run_unfold; rewrite He, Ht; cbn [negb orb];
  rewrite Hf; cbn [root trace]; rewrite Hz; cbn [root trace];
  fold done.

Lemma run_tool_failed :
  returncode done <> 0%Z ->
  _run_apkeep host self pkg w =
  (Raise (DownloadError
            (failed_msg (returncode done) pkg (err_output_of (stderr done)))),
   spawned host self pkg w).
Proof.
  intros Hrc. run_miss.
  apply Z.eqb_neq in Hrc. rewrite Hrc. cbn [negb]. unfold spawned.
  now rewrite <- !app_assoc.
Qed.

Lemma run_single_file :
  returncode done = 0%Z ->
  present host (root_after done) file_path = true ->
  _run_apkeep host self pkg w =
  (Ok file_name,
   logged (spawned host self pkg w)
     [EvLog INFO (completed_msg pkg (elapsed done)); EvExists file_path]).
Proof.
  intros Hrc Hf'. run_miss.
  rewrite Hrc. cbn [Z.eqb negb root trace]. rewrite Hf'.
  unfold logged, spawned. cbn [root trace]. now rewrite <- !app_assoc.
Qed.

Lemma run_not_found :
  returncode done = 0%Z ->
  present host (root_after done) file_path = false ->
  dir_at host (root_after done) folder_path = false ->
  _run_apkeep host self pkg w =
  (Raise (DownloadError (not_found_msg file_path folder_path)),
   logged (spawned host self pkg w)
     ([EvLog INFO (completed_msg pkg (elapsed done)); EvExists file_path;
       EvExists folder_path] ++
      if present host (root_after done) folder_path
      then [EvIsDir folder_path] else [])).
Proof.
  intros Hrc Hf' Hd. run_miss.
  rewrite Hrc. cbn [Z.eqb negb root trace]. rewrite Hf'. cbn [root trace].
  unfold logged, spawned. cbn [root trace].
  destruct (present host (root_after done) folder_path); cbn [root trace].
  - rewrite Hd. now rewrite <- !app_assoc.
  - now rewrite <- !app_assoc, app_nil_r.
Qed.

Lemma run_packed :
  returncode done = 0%Z ->
  present host (root_after done) file_path = false ->
  dir_at host (root_after done) folder_path = true ->
  _run_apkeep host self pkg w =
  (pack_folder host self folder_path zip_path ;; ret (name zip_path))%monad
    (logged (spawned host self pkg w)
       [EvLog INFO (completed_msg pkg (elapsed done)); EvExists file_path;
        EvExists folder_path; EvIsDir folder_path]).
Proof.
  intros Hrc Hf' Hd. run_miss.
  rewrite Hrc. cbn [Z.eqb negb root trace]. rewrite Hf'. cbn [root trace].
  assert (Hp : present host (root_after done) folder_path = true).
  { unfold present, dir_at in *.
    destruct (stat host (root_after done) folder_path); [reflexivity|discriminate]. }
  rewrite Hp. cbn [root trace]. rewrite Hd.
  unfold logged, spawned. cbn [root trace]. now rewrite <- !app_assoc.
Qed.

End Miss.

End RunFacts.

(* ================================================================== *)
(** ** The trace does not steer the code *)
(* ================================================================== *)

Section BlindFacts.

Variable host : Host.

Lemma blind_ret {A} (a : A) : blind (ret a).
Proof. intros w1 w2 E. auto. Qed.

Lemma blind_raise {A} (e : Exn) : blind (@raise A e).
Proof. intros w1 w2 E. auto. Qed.

Lemma blind_bind {A B} (m : M A) (k : A -> M B) :
  blind m -> (forall a, blind (k a)) -> blind (bind m k).
Proof.
  intros Hm Hk w1 w2 E. unfold bind.
  destruct (Hm w1 w2 E) as [R S].
  destruct (m w1) as [[a1|e1] v1], (m w2) as [[a2|e2] v2]; simpl in *;
    try discriminate.
  - inversion R; subst. now apply Hk.
  - inversion R; subst. split; [reflexivity | assumption].
Qed.

Lemma blind_emit (e : Event) : blind (emit e).
Proof. intros w1 w2 E. auto. Qed.

Lemma blind_for_each {A} (xs : list A) (body : A -> M unit) :
  (forall x, blind (body x)) -> blind (for_each xs body).
Proof.
  intros Hb. induction xs as [|x xs IH]; simpl.
  - apply blind_ret.
  - apply blind_bind; auto.
Qed.

Lemma blind_reads {A} (f : Node -> A) :
  blind (fun w => (Ok (f (root w)), w)).
Proof. intros w1 w2 E. simpl. now rewrite E. Qed.

Lemma blind_write_file (p : Path) (d : FileData) : blind (write_file host p d).
Proof.
  intros w1 w2 E. unfold write_file. rewrite E.
  destruct (put (resolve host p) d (root w2)); simpl; auto.
Qed.

Lemma blind_zip_write (zp file arc : Path) :
  blind (zip_write host zp file arc).
Proof.
  unfold zip_write. apply blind_bind; [apply blind_emit|]. intros _.
  intros w1 w2 E. rewrite E.
  destruct (stat host (root w2) zp) as [[[b|m es]|c]|]; simpl; auto.
  destruct (stat host (root w2) file) as [[d|c]|]; simpl; auto;
    now apply blind_write_file.
Qed.

Lemma blind_pack_folder (self : Apkeep) (folder zp : Path) :
  blind (pack_folder host self folder zp).
Proof.
  unfold pack_folder. apply blind_bind.
  - unfold zip_open. apply blind_bind; [apply blind_emit|]. intros _.
    apply blind_write_file.
  - intros _. apply blind_bind.
    + unfold rglob_star. apply blind_bind; [apply blind_emit|]. intros _.
      apply (blind_reads (fun r =>
        match stat host r folder with
        | Some n => map (fun x => mkPath (anchor folder) (parts folder ++ fst x))
                        (rglob_node n)
        | None => []
        end)).
    + intros files. apply blind_for_each. intros file.
      destruct (relative_to file (temp_folder (config self)));
        [apply blind_zip_write | apply blind_raise].
Qed.

Lemma blind_path_exists (p : Path) : blind (path_exists host p).
Proof.
  unfold path_exists. apply blind_bind; [apply blind_emit|]. intros _.
  apply (blind_reads (fun r => present host r p)).
Qed.

Lemma blind_path_is_dir (p : Path) : blind (path_is_dir host p).
Proof.
  unfold path_is_dir. apply blind_bind; [apply blind_emit|]. intros _.
  apply (blind_reads (fun r => dir_at host r p)).
Qed.

Lemma blind_run_apkeep (self : Apkeep) (pkg : pystr) :
  blind (_run_apkeep host self pkg).
Proof.
  unfold _run_apkeep.
  destruct (negb (truthy (env (config self) (py "APKEEP_EMAIL"))) ||
            negb (truthy (env (config self) (py "APKEEP_TOKEN"))));
    [apply blind_raise|].
  apply blind_bind; [apply blind_path_exists|]. intros [|]; [apply blind_ret|].
  apply blind_bind; [apply blind_path_exists|]. intros [|]; [apply blind_ret|].
  apply blind_bind.
  { unfold popen_communicate. apply blind_bind; [apply blind_emit|]. intros _.
    intros w1 w2 E. simpl. now rewrite E. }
  intros process.
  destruct (negb (returncode process =? 0)%Z); [apply blind_raise|].
  apply blind_bind; [apply blind_emit|]. intros _.
  apply blind_bind; [apply blind_path_exists|]. intros [|]; [apply blind_ret|].
  apply blind_bind; [apply blind_path_exists|]. intros b.
  apply blind_bind.
  { destruct b; [apply blind_path_is_dir | apply blind_ret]. }
  intros [|]; [|apply blind_raise].
  apply blind_bind; [apply blind_pack_folder|]. intros _. apply blind_ret.
Qed.

End BlindFacts.

(* ================================================================== *)
(** ** Every call takes one of seven paths *)
(* ================================================================== *)

Lemma run_path (host : Host) (self : Apkeep) (pkg : pystr) (w : World) :
  path_taken host self pkg w (_run_apkeep host self pkg w).
Proof.
  destruct (truthy (email_of self)) eqn:He;
    [|rewrite run_no_credentials by auto; constructor; auto].
  destruct (truthy (token_of self)) eqn:Ht;
    [|rewrite run_no_credentials by auto; constructor; auto].
  destruct (present host (root w) (file_path_of self pkg)) eqn:Hf;
    [rewrite run_cached_file by auto; constructor|].
  destruct (present host (root w) (zip_path_of self pkg)) eqn:Hz;
    [rewrite run_cached_zip by auto; constructor|].
  assert (Hm : cache_miss host self pkg w) by (repeat split; assumption).
  destruct (Z.eq_dec (returncode (tool_run host self pkg (root w))) 0) as [Hrc|Hrc];
    [|rewrite run_tool_failed by auto; constructor; auto].
  destruct (present host (root_after (tool_run host self pkg (root w)))
                    (file_path_of self pkg)) eqn:Hf';
    [rewrite run_single_file by auto; constructor; auto|].
  destruct (dir_at host (root_after (tool_run host self pkg (root w)))
                   (folder_path_of self pkg)) eqn:Hd.
  - rewrite run_packed by auto. constructor; auto.
  - rewrite run_not_found by auto. constructor; auto.
Qed.

(* ================================================================== *)
(** ** What a call adds to the trace *)
(* ================================================================== *)

Section TraceFacts.

Variable host : Host.
Variable self : Apkeep.
Variable pkg : pystr.

Lemma download_error_inj {A} (m m' : pystr) :
  @Raise A (DownloadError m) = Raise (DownloadError m') -> m = m'.
Proof. congruence. Qed.

Lemma then_ret_snd {A B} (m : M A) (b : B) (w : World) :
  snd ((m ;; ret b)%monad w) = snd (m w).
Proof. unfold bind, ret. now destruct (m w) as [[a|e] w']. Qed.

Lemma then_ret_fst {A B} (m : M A) (b : B) (w : World) :
  fst ((m ;; ret b)%monad w) =
  match fst (m w) with Ok _ => Ok b | Raise e => Raise e end.
Proof. unfold bind, ret. now destruct (m w) as [[a|e] w']. Qed.

Lemma pack_event_quiet (evs : list Event) :
  forallb is_pack_event evs = true ->
  Forall (fun e => is_warning e = false /\ is_spawn e = false) evs.
Proof.
  intros H. apply Forall_forall. intros e I.
  rewrite forallb_forall in H. specialize (H e I). now destruct e.
Qed.

(** A call adds events to the trace, none of them a warning. *)
Lemma run_trace (w : World) :
  exists evs,
    trace (snd (_run_apkeep host self pkg w)) = trace w ++ evs /\
    Forall (fun e => is_warning e = false) evs.
Proof.
  pose proof (run_path host self pkg w) as P.
  inversion P as [H E | E | E | Hm Hrc E | Hm E | Hm E | Hm E]; clear P;
    try (unfold logged, spawned; cbn [snd trace root];
         rewrite <- ?app_assoc; eexists; split; [reflexivity|];
         repeat constructor).
  - exists []. split; [now rewrite app_nil_r | constructor].
  - destruct (present host _ _); repeat constructor.
  - rewrite then_ret_snd.
    destruct (pack_folder_packs host self (folder_path_of self pkg)
                (zip_path_of self pkg)
                (logged (spawned host self pkg w)
                   [EvLog INFO (completed_msg pkg
                        (elapsed (tool_run host self pkg (root w))));
                    EvExists (file_path_of self pkg);
                    EvExists (folder_path_of self pkg);
                    EvIsDir (folder_path_of self pkg)]))
      as [_ (evs & T & Q)].
    rewrite T. unfold logged, spawned. cbn [trace root].
    rewrite <- !app_assoc. eexists. split; [reflexivity|].
    apply pack_event_quiet in Q.
    repeat (apply Forall_cons; [reflexivity|]).
    eapply Forall_impl; [|exact Q]. now intros e [? _].
Qed.

End TraceFacts.

(* ================================================================== *)
(** ** The entry points *)
(* ================================================================== *)

Section EntryPoints.

Variable host : Host.
Variable self : Apkeep.

Lemma latest_version_run (app : APP) (w : World) :
  latest_version host self app w =
  (match fst (_run_apkeep host self (package_name app) w) with
   | Ok f => Ok (f, py "apkeep://google-play/" ++ package_name app)
   | Raise e => Raise e
   end,
   snd (_run_apkeep host self (package_name app) w)).
Proof.
  unfold latest_version, bind, ret.
  now destruct (_run_apkeep host self (package_name app) w) as [[f|e] w'].
Qed.

Lemma specific_version_run (app : APP) (version : pystr) (w : World) :
  specific_version host self app version w =
  latest_version host self app
    (logged w [EvLog WARNING (pinning_msg (package_name app) version)]).
Proof. reflexivity. Qed.

End EntryPoints.

(* ================================================================== *)
(** ** The claims *)
(* ================================================================== *)

(** C1.  Whatever the package and the requested version, when
    [specific_version] returns, its provenance URI is
    [<scheme>://<source>/<package identifier>], here
    [apkeep://google-play/] followed by the package identifier: the
    version is no part of it.  [latest_version], called on the same file
    system, returns the same file name and the same URI. *)
Theorem C1_provenance_uri
  (host : Host) (self : Apkeep) (app : APP) (version : pystr) (w : World)
  (f u : pystr) :
  fst (specific_version host self app version w) = Ok (f, u) ->
  u = py "apkeep" ++ py "://" ++ py "google-play" ++ py "/" ++ package_name app /\
  fst (latest_version host self app w) = Ok (f, u).
Proof.
  intros H. rewrite specific_version_run in H.
  assert (B : fst (latest_version host self app
                     (logged w [EvLog WARNING
                        (pinning_msg (package_name app) version)])) =
              fst (latest_version host self app w)).
  { rewrite !latest_version_run. cbn [fst].
    destruct (blind_run_apkeep host self (package_name app)
                (logged w [EvLog WARNING (pinning_msg (package_name app) version)])
                w eq_refl) as [-> _].
    reflexivity. }
  rewrite B in H. split; [|exact H].
  rewrite latest_version_run in H. cbn [fst] in H.
  destruct (fst (_run_apkeep host self (package_name app) w));
    inversion H; reflexivity.
Qed.

Lemma C1_provenance_uri_witness :
  fst (specific_version (Fixtures.tool 0 [] Fixtures.apk_root) Fixtures.me
         Fixtures.app (py "3.2.1") (Fixtures.start Fixtures.empty_root)) =
    Ok (py "com.example.app.apk", py "apkeep://google-play/com.example.app") /\
  (py "apkeep://google-play/com.example.app" =
     py "apkeep" ++ py "://" ++ py "google-play" ++ py "/" ++
     package_name Fixtures.app /\
   fst (latest_version (Fixtures.tool 0 [] Fixtures.apk_root) Fixtures.me
          Fixtures.app (Fixtures.start Fixtures.empty_root)) =
     Ok (py "com.example.app.apk", py "apkeep://google-play/com.example.app")).
Proof.
  split; [reflexivity|].
  apply (C1_provenance_uri (Fixtures.tool 0 [] Fixtures.apk_root) Fixtures.me
           Fixtures.app (py "3.2.1") (Fixtures.start Fixtures.empty_root)).
  reflexivity.
Defined.

(** C6.  When one of the two credentials is the empty string, both entry
    points fail with [DownloadError] and nothing has happened: the world
    after [latest_version] is the world before it, with no look at the
    file system and no process; after [specific_version] the trace holds
    the warning it logs first, and nothing else. *)
Theorem C6_credentials_first
  (host : Host) (self : Apkeep) (app : APP) (version : pystr) (w : World) :
  email_of self = [] \/ token_of self = [] ->
  latest_version host self app w =
    (Raise (DownloadError credentials_msg), w) /\
  specific_version host self app version w =
    (Raise (DownloadError credentials_msg),
     logged w [EvLog WARNING (pinning_msg (package_name app) version)]).
Proof.
  intros H.
  assert (H' : truthy (email_of self) = false \/ truthy (token_of self) = false)
    by (destruct H as [-> | ->]; auto).
  rewrite specific_version_run, !latest_version_run.
  rewrite !run_no_credentials by exact H'. split; reflexivity.
Qed.

Lemma C6_credentials_first_witness :
  (email_of (Fixtures.downloader [] (py "s3cret")) = [] \/
   token_of (Fixtures.downloader [] (py "s3cret")) = []) /\
  (latest_version (Fixtures.tool 0 [] Fixtures.apk_root)
     (Fixtures.downloader [] (py "s3cret")) Fixtures.app
     (Fixtures.start Fixtures.apk_root) =
     (Raise (DownloadError credentials_msg), Fixtures.start Fixtures.apk_root) /\
   specific_version (Fixtures.tool 0 [] Fixtures.apk_root)
     (Fixtures.downloader [] (py "s3cret")) Fixtures.app (py "3.2.1")
     (Fixtures.start Fixtures.apk_root) =
     (Raise (DownloadError credentials_msg),
      logged (Fixtures.start Fixtures.apk_root)
        [EvLog WARNING (pinning_msg (package_name Fixtures.app) (py "3.2.1"))])).
Proof.
  split; [left; reflexivity|].
  apply (C6_credentials_first (Fixtures.tool 0 [] Fixtures.apk_root)
           (Fixtures.downloader [] (py "s3cret")) Fixtures.app (py "3.2.1")
           (Fixtures.start Fixtures.apk_root)).
  left; reflexivity.
Defined.

(** C7.  [specific_version] first logs one warning, then delegates: the
    world it leaves is the one [_run_apkeep] leaves when started after
    the warning, and no further warning is logged.  The message says
    that specific versions are not supported and that the latest one is
    downloaded instead, and it names the package and the requested
    version. *)
Theorem C7_one_warning
  (host : Host) (self : Apkeep) (app : APP) (version : pystr) (w : World) :
  snd (specific_version host self app version w) =
    snd (_run_apkeep host self (package_name app)
           (logged w [EvLog WARNING (pinning_msg (package_name app) version)])) /\
  (exists rest,
     trace (snd (specific_version host self app version w)) =
       trace w ++ EvLog WARNING (pinning_msg (package_name app) version) :: rest /\
     Forall (fun e => is_warning e = false) rest) /\
  contains (py "does not support specific versions")
           (pinning_msg (package_name app) version) /\
  contains (py "downloading latest instead")
           (pinning_msg (package_name app) version) /\
  contains (package_name app) (pinning_msg (package_name app) version) /\
  contains version (pinning_msg (package_name app) version).
Proof.
  rewrite specific_version_run, latest_version_run. cbn [snd].
  split; [reflexivity|]. split.
  - destruct (run_trace host self (package_name app)
                (logged w [EvLog WARNING (pinning_msg (package_name app) version)]))
      as (rest & T & Q).
    exists rest. rewrite T. unfold logged. cbn [trace].
    now rewrite <- app_assoc.
  - unfold pinning_msg. repeat split.
    + apply contains_keep. apply containsb_sound. reflexivity.
    + do 5 apply contains_skip. apply containsb_sound. reflexivity.
    + rewrite app_assoc. apply contains_here.
    + rewrite !app_assoc. rewrite <- app_assoc. apply contains_here.
Qed.

(** C2, as stated, fails: the artifact is on disk, yet the call raises,
    because a credential is missing. *)
Lemma C2_counterexample :
  present (Fixtures.tool 0 [] Fixtures.apk_root) Fixtures.apk_root
    (file_path_of (Fixtures.downloader [] (py "s3cret")) Fixtures.pkg) = true /\
  fst (_run_apkeep (Fixtures.tool 0 [] Fixtures.apk_root)
         (Fixtures.downloader [] (py "s3cret")) Fixtures.pkg
         (Fixtures.start Fixtures.apk_root)) =
    Raise (DownloadError credentials_msg) /\
  fst (_run_apkeep (Fixtures.tool 0 [] Fixtures.apk_root)
         (Fixtures.downloader [] (py "s3cret")) Fixtures.pkg
         (Fixtures.start Fixtures.apk_root)) <>
    Ok (file_name_of Fixtures.pkg).
Proof. split; [reflexivity | split; [reflexivity | discriminate]]. Qed.

(** C2, amended.  With both credentials set: if the file path exists,
    the call returns the file name [<package>.apk] after this one look
    at the file system; otherwise, if the archive path exists, it
    returns the name of the archive path after the two looks.  In both
    cases the file system is as before and no process is started. *)
Theorem C2_cached_artifact
  (host : Host) (self : Apkeep) (pkg : pystr) (w : World) :
  email_of self <> [] -> token_of self <> [] ->
  (present host (root w) (file_path_of self pkg) = true ->
   _run_apkeep host self pkg w =
     (Ok (pkg ++ py ".apk"),
      mkWorld (root w) (trace w ++ [EvExists (file_path_of self pkg)]))) /\
  (present host (root w) (file_path_of self pkg) = false ->
   present host (root w) (zip_path_of self pkg) = true ->
   _run_apkeep host self pkg w =
     (Ok (name (zip_path_of self pkg)),
      mkWorld (root w)
        (trace w ++ [EvExists (file_path_of self pkg);
                     EvExists (zip_path_of self pkg)]))).
Proof.
  intros He Ht.
  assert (He' : truthy (email_of self) = true)
    by (destruct (email_of self); [congruence | reflexivity]).
  assert (Ht' : truthy (token_of self) = true)
    by (destruct (token_of self); [congruence | reflexivity]).
  split.
  - intros Hf. now rewrite run_cached_file.
  - intros Hf Hz. now rewrite run_cached_zip.
Qed.

Lemma C2_cached_artifact_witness :
  email_of Fixtures.me <> [] /\ token_of Fixtures.me <> [] /\
  (present (Fixtures.tool 1 [] Fixtures.empty_root) Fixtures.apk_root
     (file_path_of Fixtures.me Fixtures.pkg) = true /\
   _run_apkeep (Fixtures.tool 1 [] Fixtures.empty_root) Fixtures.me
     Fixtures.pkg (Fixtures.start Fixtures.apk_root) =
     (Ok (py "com.example.app.apk"),
      mkWorld Fixtures.apk_root
        [EvExists (file_path_of Fixtures.me Fixtures.pkg)])) /\
  (present (Fixtures.tool 1 [] Fixtures.empty_root) Fixtures.zip_root
     (file_path_of Fixtures.me Fixtures.pkg) = false /\
   present (Fixtures.tool 1 [] Fixtures.empty_root) Fixtures.zip_root
     (zip_path_of Fixtures.me Fixtures.pkg) = true /\
   _run_apkeep (Fixtures.tool 1 [] Fixtures.empty_root) Fixtures.me
     Fixtures.pkg (Fixtures.start Fixtures.zip_root) =
     (Ok (py "com.example.app.zip"),
      mkWorld Fixtures.zip_root
        [EvExists (file_path_of Fixtures.me Fixtures.pkg);
         EvExists (zip_path_of Fixtures.me Fixtures.pkg)])).
Proof.
  assert (He : email_of Fixtures.me <> []) by discriminate.
  assert (Ht : token_of Fixtures.me <> []) by discriminate.
  split; [exact He|]. split; [exact Ht|]. split.
  - split; [reflexivity|].
    apply (proj1 (C2_cached_artifact (Fixtures.tool 1 [] Fixtures.empty_root)
                    Fixtures.me Fixtures.pkg
                    (Fixtures.start Fixtures.apk_root) He Ht)).
    reflexivity.
  - split; [reflexivity|]. split; [reflexivity|].
    apply (proj2 (C2_cached_artifact (Fixtures.tool 1 [] Fixtures.empty_root)
                    Fixtures.me Fixtures.pkg
                    (Fixtures.start Fixtures.zip_root) He Ht));
      reflexivity.
Defined.

(** C4, as stated, fails: the tool ends its message with a newline, as
    tools do, and the text in the error is not the decoded stream. *)
Lemma C4_counterexample :
  cache_miss (Fixtures.tool 1 Fixtures.boom_line Fixtures.empty_root)
    Fixtures.me Fixtures.pkg (Fixtures.start Fixtures.empty_root) /\
  returncode (tool_run (Fixtures.tool 1 Fixtures.boom_line Fixtures.empty_root)
                Fixtures.me Fixtures.pkg Fixtures.empty_root) = 1%Z /\
  decode_replace Fixtures.boom_line = py "boom" ++ [10%N] /\
  fst (_run_apkeep (Fixtures.tool 1 Fixtures.boom_line Fixtures.empty_root)
         Fixtures.me Fixtures.pkg (Fixtures.start Fixtures.empty_root)) =
    Raise (DownloadError
             (py "apkeep failed with exit code 1 for com.example.app: boom")) /\
  fst (_run_apkeep (Fixtures.tool 1 Fixtures.boom_line Fixtures.empty_root)
         Fixtures.me Fixtures.pkg (Fixtures.start Fixtures.empty_root)) <>
    Raise (DownloadError
             (py "apkeep failed with exit code 1 for com.example.app: " ++
              decode_replace Fixtures.boom_line)).
Proof.
  split; [repeat split|]. split; [reflexivity|]. split; [reflexivity|].
  split; [reflexivity | discriminate].
Qed.

(** C4, amended.  When the tool is run and exits with a status other
    than zero, the call fails with a [DownloadError]; its message holds
    the exit status in decimal and the package identifier, and ends
    with the error text: the placeholder [no details] when the error
    stream is empty, and otherwise the stream decoded (bytes that do not
    decode replaced) with the white space at both ends removed. *)
Theorem C4_tool_failure
  (host : Host) (self : Apkeep) (pkg : pystr) (w : World) :
  cache_miss host self pkg w ->
  returncode (tool_run host self pkg (root w)) <> 0%Z ->
  fst (_run_apkeep host self pkg w) =
    Raise (DownloadError
      (py "apkeep failed with exit code " ++
       str_of_int (returncode (tool_run host self pkg (root w))) ++
       py " for " ++ pkg ++ py ": " ++
       match stderr (tool_run host self pkg (root w)) with
       | [] => py "no details"
       | _ :: _ => strip (decode_replace (stderr (tool_run host self pkg (root w))))
       end)) /\
  (forall m, fst (_run_apkeep host self pkg w) = Raise (DownloadError m) ->
     contains (str_of_int (returncode (tool_run host self pkg (root w)))) m /\
     contains pkg m) /\
  py "no details" <> [].
Proof.
  intros (He & Ht & Hf & Hz) Hrc.
  rewrite run_tool_failed by assumption. cbn [fst].
  unfold failed_msg, err_output_of. split; [|split; [|discriminate]].
  - now destruct (stderr (tool_run host self pkg (root w))).
  - intros m E. apply download_error_inj in E. rewrite <- E. split.
    + apply contains_here.
    + do 2 apply contains_skip. apply contains_here.
Qed.

Lemma C4_tool_failure_witness :
  cache_miss (Fixtures.tool 1 Fixtures.boom_line Fixtures.empty_root)
    Fixtures.me Fixtures.pkg (Fixtures.start Fixtures.empty_root) /\
  returncode (tool_run (Fixtures.tool 1 Fixtures.boom_line Fixtures.empty_root)
                Fixtures.me Fixtures.pkg
                (root (Fixtures.start Fixtures.empty_root))) <> 0%Z /\
  fst (_run_apkeep (Fixtures.tool 1 Fixtures.boom_line Fixtures.empty_root)
         Fixtures.me Fixtures.pkg (Fixtures.start Fixtures.empty_root)) =
    Raise (DownloadError
             (py "apkeep failed with exit code 1 for com.example.app: boom")).
Proof.
  assert (Hm : cache_miss (Fixtures.tool 1 Fixtures.boom_line Fixtures.empty_root)
                 Fixtures.me Fixtures.pkg (Fixtures.start Fixtures.empty_root))
    by (repeat split).
  assert (Hrc : returncode
                  (tool_run (Fixtures.tool 1 Fixtures.boom_line Fixtures.empty_root)
                     Fixtures.me Fixtures.pkg
                     (root (Fixtures.start Fixtures.empty_root))) <> 0%Z)
    by discriminate.
  split; [exact Hm|]. split; [exact Hrc|].
  exact (proj1 (C4_tool_failure _ _ _ _ Hm Hrc)).
Defined.

(** C5.  When the tool is run and exits with status zero, and afterwards
    neither the file path nor the folder path exists, the call fails
    with a [DownloadError] whose message holds the text of both paths. *)
Theorem C5_output_missing
  (host : Host) (self : Apkeep) (pkg : pystr) (w : World) :
  cache_miss host self pkg w ->
  returncode (tool_run host self pkg (root w)) = 0%Z ->
  present host (root_after (tool_run host self pkg (root w)))
    (file_path_of self pkg) = false ->
  present host (root_after (tool_run host self pkg (root w)))
    (folder_path_of self pkg) = false ->
  fst (_run_apkeep host self pkg w) =
    Raise (DownloadError
      (py "APK not found after apkeep. Expected " ++
       fspath (file_path_of self pkg) ++ py " or " ++
       fspath (folder_path_of self pkg))) /\
  forall m, fst (_run_apkeep host self pkg w) = Raise (DownloadError m) ->
    contains (fspath (file_path_of self pkg)) m /\
    contains (fspath (folder_path_of self pkg)) m.
Proof.
  intros (He & Ht & Hf & Hz) Hrc Hf' Hd'.
  assert (Hd : dir_at host (root_after (tool_run host self pkg (root w)))
                 (folder_path_of self pkg) = false).
  { unfold present, dir_at in *.
    now destruct (stat host (root_after (tool_run host self pkg (root w)))
                    (folder_path_of self pkg)). }
  rewrite run_not_found by assumption. cbn [fst]. unfold not_found_msg.
  split; [reflexivity|].
  intros m E. apply download_error_inj in E. rewrite <- E. split.
  - apply contains_here.
  - do 2 apply contains_skip. apply contains_end.
Qed.

Lemma C5_output_missing_witness :
  cache_miss (Fixtures.tool 0 [] Fixtures.empty_root) Fixtures.me Fixtures.pkg
    (Fixtures.start Fixtures.empty_root) /\
  returncode (tool_run (Fixtures.tool 0 [] Fixtures.empty_root) Fixtures.me
                Fixtures.pkg Fixtures.empty_root) = 0%Z /\
  present (Fixtures.tool 0 [] Fixtures.empty_root) Fixtures.empty_root
    (file_path_of Fixtures.me Fixtures.pkg) = false /\
  present (Fixtures.tool 0 [] Fixtures.empty_root) Fixtures.empty_root
    (folder_path_of Fixtures.me Fixtures.pkg) = false /\
  fst (_run_apkeep (Fixtures.tool 0 [] Fixtures.empty_root)
         Fixtures.me Fixtures.pkg (Fixtures.start Fixtures.empty_root)) =
    Raise (DownloadError
      (py "APK not found after apkeep. Expected apks/com.example.app.apk or apks/com.example.app")).
Proof.
  assert (Hm : cache_miss (Fixtures.tool 0 [] Fixtures.empty_root) Fixtures.me
                 Fixtures.pkg (Fixtures.start Fixtures.empty_root))
    by (repeat split).
  split; [exact Hm|]. do 3 (split; [reflexivity|]).
  exact (proj1 (C5_output_missing (Fixtures.tool 0 [] Fixtures.empty_root)
                  Fixtures.me Fixtures.pkg (Fixtures.start Fixtures.empty_root)
                  Hm eq_refl eq_refl eq_refl)).
Defined.

(** C9.  A call that fails with a [DownloadError] has written nothing:
    the events it added to the trace hold no write to the file system,
    and the file system it leaves is the one it found, no process having
    been started, or else the one the tool left behind. *)
Theorem C9_failure_writes_nothing
  (host : Host) (self : Apkeep) (pkg : pystr) (w : World) (m : pystr) :
  fst (_run_apkeep host self pkg w) = Raise (DownloadError m) ->
  exists evs,
    trace (snd (_run_apkeep host self pkg w)) = trace w ++ evs /\
    Forall (fun e => is_write e = false) evs /\
    ((root (snd (_run_apkeep host self pkg w)) = root w /\
      Forall (fun e => is_spawn e = false) evs) \/
     root (snd (_run_apkeep host self pkg w)) =
       root_after (tool_run host self pkg (root w))).
Proof.
  pose proof (run_path host self pkg w) as P.
  inversion P as [H E | E | E | Hm Hrc E | Hm E | Hm E | Hm E]; clear P;
    cbn [fst snd]; intros F; try discriminate.
  - exists []. rewrite app_nil_r. repeat split; auto.
  - eexists. unfold spawned. cbn [trace root]. split; [reflexivity|].
    split; [repeat constructor | right; reflexivity].
  - eexists. unfold logged, spawned. cbn [trace root].
    rewrite <- app_assoc. split; [reflexivity|]. split; [|right; reflexivity].
    destruct (present host _ _); repeat constructor.
  - exfalso. rewrite then_ret_fst in F.
    destruct (fst (pack_folder host self (folder_path_of self pkg)
                     (zip_path_of self pkg) _)) as [[]|e] eqn:R;
      [discriminate|].
    apply pack_folder_raises in R. destruct R; subst e; discriminate.
Qed.

Lemma C9_failure_writes_nothing_witness :
  fst (_run_apkeep (Fixtures.tool 1 Fixtures.boom_line Fixtures.split_root)
         Fixtures.me Fixtures.pkg (Fixtures.start Fixtures.empty_root)) =
    Raise (DownloadError
             (py "apkeep failed with exit code 1 for com.example.app: boom")) /\
  exists evs,
    trace (snd (_run_apkeep (Fixtures.tool 1 Fixtures.boom_line Fixtures.split_root)
                  Fixtures.me Fixtures.pkg (Fixtures.start Fixtures.empty_root))) =
      [] ++ evs /\
    Forall (fun e => is_write e = false) evs /\
    ((root (snd (_run_apkeep (Fixtures.tool 1 Fixtures.boom_line Fixtures.split_root)
                   Fixtures.me Fixtures.pkg (Fixtures.start Fixtures.empty_root))) =
        Fixtures.empty_root /\
      Forall (fun e => is_spawn e = false) evs) \/
     root (snd (_run_apkeep (Fixtures.tool 1 Fixtures.boom_line Fixtures.split_root)
                  Fixtures.me Fixtures.pkg (Fixtures.start Fixtures.empty_root))) =
       Fixtures.split_root).
Proof.
  split; [reflexivity|].
  apply (C9_failure_writes_nothing
           (Fixtures.tool 1 Fixtures.boom_line Fixtures.split_root)
           Fixtures.me Fixtures.pkg (Fixtures.start Fixtures.empty_root)
           (py "apkeep failed with exit code 1 for com.example.app: boom")).
  reflexivity.
Defined.


Lemma zip_name_no_sep (self : Apkeep) (pkg : pystr) :
  existsb (N.eqb SEP) pkg = false ->
  name (zip_path_of self pkg) = pkg ++ py ".zip".
Proof.
  intros H. unfold zip_path_of.
  rewrite (suffixed_single _ pkg (py ".zip") H eq_refl) by (simpl; lia).
  unfold name. cbn [parts]. apply last_snoc.
Qed.

Lemma run_returns (host : Host) (self : Apkeep) (pkg : pystr) (w : World)
      (f : pystr) :
  fst (_run_apkeep host self pkg w) = Ok f ->
  f = pkg ++ py ".apk" \/ f = name (zip_path_of self pkg).
Proof.
  pose proof (run_path host self pkg w) as P.
  inversion P as [H E | E | E | Hm Hrc E | Hm E | Hm E | Hm E]; clear P;
    cbn [fst]; intros F; try discriminate;
    try (injection F as <-; auto; fail).
  rewrite then_ret_fst in F.
  destruct (fst (pack_folder host self _ _ _)); [|discriminate].
  injection F as <-. auto.
Qed.



(* ================================================================== *)
(** ** The three paths of a plain package identifier *)
(* ================================================================== *)

Section PlainPaths.

Variable host : Host.
Variable self : Apkeep.
Variable pkg : pystr.
Hypothesis plain : plain_name pkg = true.

Local Abbreviation T := (temp_folder (config self)).

Lemma folder_path_plain :
  folder_path_of self pkg = mkPath (anchor T) (parts T ++ [pkg]).
Proof.
  destruct (plain_name_spec _ plain) as (Hs & Ht & Hd & _).
  unfold folder_path_of. now apply joinpath_single.
Qed.

Lemma zip_path_plain :
  zip_path_of self pkg = mkPath (anchor T) (parts T ++ [pkg ++ py ".zip"]).
Proof.
  destruct (plain_name_spec _ plain) as (Hs & _).
  unfold zip_path_of. apply suffixed_single; [exact Hs | reflexivity | simpl; lia].
Qed.

Lemma resolve_below (a : pystr) (ps l : list pystr) :
  resolve host (mkPath a (ps ++ l)) = resolve host (mkPath a ps) ++ l.
Proof.
  unfold resolve. cbn [anchor parts].
  destruct (truthy a); [reflexivity | now rewrite app_assoc].
Qed.

Lemma resolve_folder_plain :
  resolve host (folder_path_of self pkg) = resolve host T ++ [pkg].
Proof. rewrite folder_path_plain, resolve_below. now destruct T. Qed.

Lemma resolve_zip_plain :
  resolve host (zip_path_of self pkg) = resolve host T ++ [pkg ++ py ".zip"].
Proof. rewrite zip_path_plain, resolve_below. now destruct T. Qed.

Lemma zip_name_differs : pkg ++ py ".zip" <> pkg.
Proof.
  intros E. apply (f_equal (@List.length N)) in E.
  rewrite length_app in E. simpl in E. lia.
Qed.

End PlainPaths.

(** C8.  On the path that packs the folder, whether or not the packing
    succeeds: every path of the file system other than the archive path
    shows after the call what it showed when the tool had finished (the
    same file content, a directory, or nothing); what was a directory is
    still a directory, the package folder among them; and for a package
    identifier that is a plain name the package folder is the same node,
    with everything below it. *)
Theorem C8_directory_kept
  (host : Host) (self : Apkeep) (pkg : pystr) (w : World) :
  cache_miss host self pkg w ->
  returncode (tool_run host self pkg (root w)) = 0%Z ->
  present host (root_after (tool_run host self pkg (root w)))
    (file_path_of self pkg) = false ->
  dir_at host (root_after (tool_run host self pkg (root w)))
    (folder_path_of self pkg) = true ->
  (forall qs, qs <> resolve host (zip_path_of self pkg) ->
     seen (walk (root (snd (_run_apkeep host self pkg w))) qs) =
     seen (walk (root_after (tool_run host self pkg (root w))) qs)) /\
  (forall qs,
     seen (walk (root_after (tool_run host self pkg (root w))) qs) = IsDir ->
     seen (walk (root (snd (_run_apkeep host self pkg w))) qs) = IsDir) /\
  dir_at host (root (snd (_run_apkeep host self pkg w)))
    (folder_path_of self pkg) = true /\
  (plain_name pkg = true ->
   stat host (root (snd (_run_apkeep host self pkg w))) (folder_path_of self pkg) =
   stat host (root_after (tool_run host self pkg (root w))) (folder_path_of self pkg)).
Proof.
  intros (He & Ht & Hf & Hz) Hrc Hf' Hd.
  rewrite run_packed by assumption. rewrite then_ret_snd.
  match goal with
  | |- context [pack_folder host self ?f ?z ?w2] =>
      destruct (pack_folder_packs host self f z w2) as [(A & D & B) _]
  end.
  cbn [logged spawned root] in A, D, B.
  split; [exact A|]. split; [exact D|]. split.
  - unfold dir_at, stat in *.
    specialize (D (resolve host (folder_path_of self pkg))).
    destruct (walk (root_after (tool_run host self pkg (root w)))
                (resolve host (folder_path_of self pkg))) as [[x|c]|];
      try discriminate.
    specialize (D eq_refl).
    destruct (walk _ (resolve host (folder_path_of self pkg))) as [[x|c']|];
      try discriminate; reflexivity.
  - intros Hp. unfold stat.
    rewrite (resolve_folder_plain host self pkg Hp).
    apply (B (resolve host (temp_folder (config self))) (pkg ++ py ".zip") pkg []).
    + apply resolve_zip_plain. exact Hp.
    + apply zip_name_differs.
Qed.

Lemma C8_directory_kept_witness :
  cache_miss (Fixtures.tool 0 [] Fixtures.split_root) Fixtures.me Fixtures.pkg
    (Fixtures.start Fixtures.empty_root) /\
  dir_at (Fixtures.tool 0 [] Fixtures.split_root) Fixtures.split_root
    (folder_path_of Fixtures.me Fixtures.pkg) = true /\
  stat (Fixtures.tool 0 [] Fixtures.split_root)
    (root (snd (_run_apkeep (Fixtures.tool 0 [] Fixtures.split_root) Fixtures.me
                  Fixtures.pkg (Fixtures.start Fixtures.empty_root))))
    (folder_path_of Fixtures.me Fixtures.pkg) =
  Some Fixtures.split_folder.
Proof.
  assert (Hm : cache_miss (Fixtures.tool 0 [] Fixtures.split_root) Fixtures.me
                 Fixtures.pkg (Fixtures.start Fixtures.empty_root))
    by (repeat split).
  split; [exact Hm|]. split; [reflexivity|].
  rewrite (proj2 (proj2 (proj2
            (C8_directory_kept (Fixtures.tool 0 [] Fixtures.split_root)
               Fixtures.me Fixtures.pkg (Fixtures.start Fixtures.empty_root)
               Hm eq_refl eq_refl eq_refl))) eq_refl).
  reflexivity.
Defined.

(* ================================================================== *)
(** ** Packing the folder of a plain package identifier *)
(* ================================================================== *)

Section PackPlain.

Variable host : Host.
Variable self : Apkeep.
Variable pkg : pystr.
Hypothesis plain : plain_name pkg = true.

Local Abbreviation T := (temp_folder (config self)).
Local Abbreviation base := (resolve host (temp_folder (config self))).
Local Abbreviation zp := (mkPath (anchor T) (parts T ++ [pkg ++ py ".zip"])).

Lemma put_over (c : list pystr) (a : pystr) (d x : FileData) (n : Node) :
  walk n (c ++ [a]) = Some (File x) ->
  exists n', put (c ++ [a]) d n = Some n'.
Proof.
  rewrite walk_app. destruct (walk n c) as [[y|ch]|] eqn:W; try discriminate.
  simpl. intros F. apply put_ok with ch; [exact W|].
  intros z E. destruct (find a ch); [|discriminate]. congruence.
Qed.

Lemma resolve_zp : resolve host zp = base ++ [pkg ++ py ".zip"].
Proof. rewrite resolve_below. now destruct T. Qed.

Lemma resolve_item (rel : list pystr) :
  resolve host (mkPath (anchor T) (parts T ++ pkg :: rel)) = base ++ pkg :: rel.
Proof. rewrite resolve_below. now destruct T. Qed.

(** The loop over the entries found: each becomes the next member of
    the archive. *)
Lemma zip_loop (m : Compression) :
  forall (items : list (list pystr * Node)) (es : list (pystr * Member))
         (w : World),
  walk (root w) (base ++ [pkg ++ py ".zip"]) = Some (File (Archive m es)) ->
  Forall (fun x => seen (walk (root w) (base ++ pkg :: fst x)) =
                   seen (Some (snd x))) items ->
  exists w',
    for_each
      (map (fun x => mkPath (anchor T) (parts T ++ pkg :: fst x)) items)
      (fun file =>
         match relative_to file T with
         | Some arcname => zip_write host zp file arcname
         | None => raise ValueError
         end) w = (Ok tt, w') /\
    walk (root w') (base ++ [pkg ++ py ".zip"]) =
      Some (File (Archive m (es ++ map (member_of pkg) items))).
Proof.
  induction items as [|[rel n] items IH]; intros es w Hz Hitems.
  - exists w. simpl. now rewrite app_nil_r.
  - inversion Hitems as [|? ? Hx Hrest]; subst. cbn [fst snd] in Hx.
    cbn [map for_each fst]. unfold bind at 1.
    assert (R : relative_to (mkPath (anchor T) (parts T ++ pkg :: rel)) T =
                Some (mkPath [] (pkg :: rel))).
    { destruct T as [a ps]. cbn [anchor parts]. apply relative_to_below. }
    set (member := member_of pkg (rel, n)).
    set (ev := EvZipWrite (mkPath (anchor T) (parts T ++ pkg :: rel))
                 (fspath (mkPath [] (pkg :: rel)))).
    destruct (put_over base (pkg ++ py ".zip")
                (Archive m (es ++ [member])) _ _ Hz) as [r' Hput].
    assert (Hw : forall t,
      write_file host zp (Archive m (es ++ [member]))
        (mkWorld (root w) t) = (Ok tt, mkWorld r' t)).
    { intros t. unfold write_file. cbn [root trace].
      rewrite resolve_zp. unfold pystr in *. now rewrite Hput. }
    assert (Hstep :
      zip_write host zp (mkPath (anchor T) (parts T ++ pkg :: rel))
        (mkPath [] (pkg :: rel)) w = (Ok tt, mkWorld r' (trace w ++ [ev]))).
    { unfold zip_write, bind, emit. cbn [root trace].
      unfold stat. rewrite resolve_zp, resolve_item, Hz.
      destruct (walk (root w) (base ++ pkg :: rel)) as [[d|c]|], n as [d'|c'];
        simpl in Hx; try discriminate.
      - injection Hx as ->. apply Hw.
      - apply Hw. }
    rewrite R, Hstep.
    destruct (IH (es ++ [member]) (mkWorld r' (trace w ++ [ev])))
      as (w' & Hfor & Hfin).
    + cbn [root]. eapply put_here. exact Hput.
    + cbn [root]. apply Forall_forall. intros x Ix.
      rewrite Forall_forall in Hrest.
      rewrite (put_beside base (pkg ++ py ".zip") pkg _
                 (zip_name_differs pkg) _ _ _ Hput).
      now apply Hrest.
    + exists w'. split; [exact Hfor|].
      rewrite Hfin. now rewrite <- app_assoc.
Qed.

(** Packing a folder whose entries have unique names, when no
    directory stands at the archive path: the archive holds one member
    for each entry found, in the order in which they are found. *)
Lemma pack_folder_plain (w : World) (d : Node) :
  stat host (root w) (folder_path_of self pkg) = Some d ->
  unique_names d = true ->
  dir_at host (root w) (zip_path_of self pkg) = false ->
  exists w',
    pack_folder host self (folder_path_of self pkg) (zip_path_of self pkg) w =
      (Ok tt, w') /\
    stat host (root w') (zip_path_of self pkg) =
      Some (File (Archive ZIP_DEFLATED (map (member_of pkg) (rglob_node d)))).
Proof.
  intros Hd Hu Hz.
  rewrite (folder_path_plain self pkg plain) in *.
  rewrite (zip_path_plain self pkg plain) in *.
  unfold stat, dir_at, stat in *.
  change (mkPath (anchor T) (parts T ++ [pkg])) with
    (mkPath (anchor T) (parts T ++ pkg :: [])) in *.
  rewrite resolve_item in *. rewrite resolve_zp in *.
  (* the temporary folder is a directory *)
  pose proof Hd as Hd0. rewrite walk_app in Hd0.
  destruct (walk (root w) base) as [[y|chT]|] eqn:Wb; try discriminate.
  (* the archive is created *)
  destruct (put_ok base (pkg ++ py ".zip") (Archive ZIP_DEFLATED [])
              (root w) chT Wb) as [r1 Hput].
  { intros x E. rewrite walk_app, Wb in Hz. simpl in Hz.
    unfold pystr in *. rewrite E in Hz. discriminate. }
  assert (Hbeside : forall r, walk r1 (base ++ pkg :: r) = walk (root w) (base ++ pkg :: r)).
  { intros r. apply put_beside with (pkg ++ py ".zip") (Archive ZIP_DEFLATED []);
      [apply zip_name_differs | exact Hput]. }
  (* the entries found are those of the folder *)
  destruct (zip_loop ZIP_DEFLATED (rglob_node d) []
              (mkWorld r1 (trace w ++ [EvZipOpen zp ZIP_DEFLATED] ++
                                      [EvRglob (mkPath (anchor T) (parts T ++ [pkg]))])))
    as (w' & Hfor & Hfin).
  { cbn [root]. eapply put_here. exact Hput. }
  { cbn [root]. apply Forall_forall. intros [rel n] I. cbn [fst snd].
    rewrite Hbeside.
    change (base ++ pkg :: rel) with (base ++ [pkg] ++ rel).
    rewrite app_assoc, walk_app. unfold pystr in *. rewrite Hd.
    now rewrite (rglob_node_walk d Hu rel n I). }
  exists w'. split.
  - unfold pack_folder, zip_open, rglob_star, write_file, bind, emit.
    cbn [root trace]. rewrite resolve_zp. unfold pystr in *. rewrite Hput.
    cbn [root trace]. unfold stat. rewrite resolve_item, Hbeside.
    unfold pystr in *. rewrite Hd. cbn [anchor parts].
    rewrite <- Hfor. rewrite <- app_assoc. f_equal.
    apply map_ext. intros x. now rewrite <- app_assoc.
  - cbn [app] in Hfin. exact Hfin.
Qed.

End PackPlain.

Section Members.

Variable pkg : pystr.

Lemma member_of_with (x : list pystr * Node) :
  member_of pkg x = member_with (arcname_of pkg) x.
Proof. unfold member_of, member_with. now destruct (snd x). Qed.

Lemma filter_permutation {A} (p : A -> bool) (l l' : list A) :
  Permutation l l' -> Permutation (filter p l) (filter p l').
Proof.
  induction 1 as [|x l l' H IH|x y l|l l' l'' H1 IH1 H2 IH2]; simpl.
  - constructor.
  - destruct (p x); [now constructor | exact IH].
  - destruct (p x), (p y); try apply Permutation_refl. constructor.
  - now transitivity (filter p l').
Qed.

Lemma filter_file_members (fs : list (list pystr * FileData)) :
  filter is_file_member (map (file_member pkg) fs) = map (file_member pkg) fs.
Proof. induction fs as [|x fs IH]; simpl; [reflexivity | now rewrite IH]. Qed.

Lemma filter_dir_members (ds : list (list pystr)) :
  filter is_file_member (map (dir_member pkg) ds) = [].
Proof. induction ds as [|x ds IH]; simpl; [reflexivity | exact IH]. Qed.

(** The members written for a folder: one for each file below it and
    one for each sub-directory. *)
Lemma members_of_folder (d : Node) :
  Permutation (map (member_of pkg) (rglob_node d))
    (map (file_member pkg) (files_of d) ++ map (dir_member pkg) (dirs_of d)).
Proof.
  rewrite (map_ext _ _ member_of_with). apply rglob_members.
Qed.

End Members.

(** C3, as stated, fails: the folder holds three files, one of them in
    a sub-directory, and the archive has four members, the fourth being
    the entry of the sub-directory. *)
Lemma C3_counterexample :
  cache_miss (Fixtures.tool 0 [] Fixtures.split_root) Fixtures.me Fixtures.pkg
    (Fixtures.start Fixtures.empty_root) /\
  returncode (tool_run (Fixtures.tool 0 [] Fixtures.split_root) Fixtures.me
                Fixtures.pkg Fixtures.empty_root) = 0%Z /\
  present (Fixtures.tool 0 [] Fixtures.split_root) Fixtures.split_root
    (file_path_of Fixtures.me Fixtures.pkg) = false /\
  stat (Fixtures.tool 0 [] Fixtures.split_root) Fixtures.split_root
    (folder_path_of Fixtures.me Fixtures.pkg) = Some Fixtures.split_folder /\
  List.length (files_of Fixtures.split_folder) = 3%nat /\
  stat (Fixtures.tool 0 [] Fixtures.split_root)
    (root (snd (_run_apkeep (Fixtures.tool 0 [] Fixtures.split_root) Fixtures.me
                  Fixtures.pkg (Fixtures.start Fixtures.empty_root))))
    (zip_path_of Fixtures.me Fixtures.pkg) =
  Some (File (Archive ZIP_DEFLATED
    [ (py "com.example.app/base.apk", FileMember (Bytes [1%N]));
      (py "com.example.app/lib/", DirMember);
      (py "com.example.app/config.en.apk", FileMember (Bytes [3%N]));
      (py "com.example.app/lib/arm64.apk", FileMember (Bytes [2%N])) ])) /\
  ~ Permutation
      [ (py "com.example.app/base.apk", FileMember (Bytes [1%N]));
        (py "com.example.app/lib/", DirMember);
        (py "com.example.app/config.en.apk", FileMember (Bytes [3%N]));
        (py "com.example.app/lib/arm64.apk", FileMember (Bytes [2%N])) ]
      (map (file_member Fixtures.pkg) (files_of Fixtures.split_folder)).
Proof.
  split; [repeat split|]. do 5 (split; [reflexivity|]).
  intros P. apply Permutation_length in P. discriminate P.
Qed.

(** C3, amended.  For a package identifier that is a plain name: when
    the tool is run and exits with status zero, the file path does not
    exist, the folder path is a directory whose entries have unique
    names, and no directory stands at the archive path, the call returns
    [<package>.zip] and the archive path holds a deflate-compressed
    archive.  Its file members are exactly the files below the folder,
    at any depth, each with its content and under the name of its path
    relative to the temporary folder; besides them it has one directory
    member, with a name ending in a slash, for every sub-directory below
    the folder. *)
Theorem C3_split_archive
  (host : Host) (self : Apkeep) (pkg : pystr) (w : World) (d : Node) :
  cache_miss host self pkg w ->
  returncode (tool_run host self pkg (root w)) = 0%Z ->
  present host (root_after (tool_run host self pkg (root w)))
    (file_path_of self pkg) = false ->
  plain_name pkg = true ->
  stat host (root_after (tool_run host self pkg (root w)))
    (folder_path_of self pkg) = Some d ->
  is_dir_node d = true ->
  unique_names d = true ->
  dir_at host (root_after (tool_run host self pkg (root w)))
    (zip_path_of self pkg) = false ->
  fst (_run_apkeep host self pkg w) = Ok (pkg ++ py ".zip") /\
  exists members,
    stat host (root (snd (_run_apkeep host self pkg w))) (zip_path_of self pkg) =
      Some (File (Archive ZIP_DEFLATED members)) /\
    Permutation members
      (map (file_member pkg) (files_of d) ++ map (dir_member pkg) (dirs_of d)) /\
    Permutation (filter is_file_member members)
      (map (file_member pkg) (files_of d)) /\
    List.length (filter is_file_member members) = List.length (files_of d).
Proof.
  intros (He & Ht & Hf & Hz) Hrc Hf' Hp Hd Hdir Hu Hz'.
  assert (Hda : dir_at host (root_after (tool_run host self pkg (root w)))
                  (folder_path_of self pkg) = true).
  { unfold dir_at. rewrite Hd. now destruct d. }
  rewrite run_packed by assumption.
  destruct (pack_folder_plain host self pkg Hp
              (logged (spawned host self pkg w)
                 [EvLog INFO (completed_msg pkg
                      (elapsed (tool_run host self pkg (root w))));
                  EvExists (file_path_of self pkg);
                  EvExists (folder_path_of self pkg);
                  EvIsDir (folder_path_of self pkg)]) d Hd Hu Hz')
    as (w' & Hpack & Hzip).
  unfold bind, ret. rewrite Hpack. cbn [fst snd]. split.
  - f_equal. apply zip_name_no_sep.
    now destruct (plain_name_spec _ Hp).
  - exists (map (member_of pkg) (rglob_node d)). split; [exact Hzip|].
    pose proof (members_of_folder pkg d) as P. split; [exact P|].
    assert (Q : Permutation
                  (filter is_file_member (map (member_of pkg) (rglob_node d)))
                  (map (file_member pkg) (files_of d))).
    { apply (filter_permutation is_file_member) in P.
      rewrite filter_app, filter_file_members, filter_dir_members, app_nil_r in P.
      exact P. }
    split; [exact Q|].
    rewrite (Permutation_length Q). apply length_map.
Qed.

Lemma C3_split_archive_witness :
  cache_miss (Fixtures.tool 0 [] Fixtures.split_root) Fixtures.me Fixtures.pkg
    (Fixtures.start Fixtures.empty_root) /\
  plain_name Fixtures.pkg = true /\
  unique_names Fixtures.split_folder = true /\
  fst (_run_apkeep (Fixtures.tool 0 [] Fixtures.split_root) Fixtures.me
         Fixtures.pkg (Fixtures.start Fixtures.empty_root)) =
    Ok (py "com.example.app.zip").
Proof.
  assert (Hm : cache_miss (Fixtures.tool 0 [] Fixtures.split_root) Fixtures.me
                 Fixtures.pkg (Fixtures.start Fixtures.empty_root))
    by (repeat split).
  split; [exact Hm|]. split; [reflexivity|]. split; [reflexivity|].
  exact (proj1 (C3_split_archive (Fixtures.tool 0 [] Fixtures.split_root)
                  Fixtures.me Fixtures.pkg (Fixtures.start Fixtures.empty_root)
                  Fixtures.split_folder
                  Hm eq_refl eq_refl eq_refl eq_refl eq_refl eq_refl eq_refl)).
Defined.

(* ================================================================== *)
(** ** Further properties of the code *)
(* ================================================================== *)

(* ================================================================== *)
(** ** The paths of an arbitrary package identifier *)
(* ================================================================== *)

Section AnyPaths.

Lemma split_on_cons (c x : N) (s : pystr) :
  exists f fs, split_on c s = f :: fs /\
    split_on c (x :: s) = if N.eqb x c then [] :: f :: fs else (x :: f) :: fs.
Proof.
  assert (H : exists f fs, split_on c s = f :: fs).
  { destruct s as [|y s]; simpl; [eauto|].
    destruct (split_on c s) as [|f fs]; [eauto|].
    destruct (N.eqb y c); eauto. }
  destruct H as (f & fs & E). exists f, fs. split; [exact E|].
  simpl. now rewrite E.
Qed.

(** A suffix without a separator extends the last field. *)
Lemma split_on_suffix (c : N) (s e : pystr) :
  existsb (N.eqb c) e = false ->
  split_on c (s ++ e) =
  removelast (split_on c s) ++ [last (split_on c s) [] ++ e].
Proof.
  intros He. induction s as [|x s IH].
  - simpl. now apply split_on_no_sep.
  - destruct (split_on_cons c x s) as (f & fs & E & E').
    rewrite E'. rewrite E in IH.
    destruct (split_on_cons c x (s ++ e)) as (g & gs & G & G').
    simpl app. rewrite G'. rewrite IH in G.
    destruct fs as [|f2 fs].
    + simpl in G. injection G as <- <-.
      destruct (N.eqb x c); reflexivity.
    + change (removelast (f :: f2 :: fs)) with (f :: removelast (f2 :: fs)) in G.
      change (last (f :: f2 :: fs) []) with (last (f2 :: fs) []) in G.
      simpl app in G. injection G as <- <-.
      destruct (N.eqb x c).
      * change (removelast ([] :: f :: f2 :: fs)) with
          ([] :: f :: removelast (f2 :: fs)).
        reflexivity.
      * change (removelast ((x :: f) :: f2 :: fs)) with
          ((x :: f) :: removelast (f2 :: fs)).
        reflexivity.
Qed.

Lemma split_on_last (c : N) (s : pystr) :
  split_on c s = removelast (split_on c s) ++ [last (split_on c s) []].
Proof.
  apply app_removelast_last.
  destruct s as [|x s]; [discriminate|].
  destruct (split_on_cons c x s) as (f & fs & _ & ->).
  destruct (N.eqb x c); discriminate.
Qed.

Ltac not_sep a Ha :=
  let p := fresh "p" in
  destruct a as [|p]; [reflexivity|];
  do 6 (destruct p as [p|p|]; try reflexivity);
  exfalso; apply Ha; reflexivity.

(** The anchor, read off the first three characters. *)
Lemma splitroot_eqb (s : pystr) :
  splitroot s =
  match s with
  | [] => []
  | a :: s1 =>
      if N.eqb a SEP then
        match s1 with
        | [] => py "/"
        | b :: s2 =>
            if N.eqb b SEP then
              match s2 with
              | [] => py "//"
              | c :: _ => if N.eqb c SEP then py "/" else py "//"
              end
            else py "/"
        end
      else []
  end.
Proof.
  destruct s as [|a s1]; [reflexivity|].
  destruct (N.eqb_spec a SEP) as [Ea|Ha].
  2: { unfold SEP in Ha. not_sep a Ha. }
  subst a. destruct s1 as [|b s2]; [reflexivity|].
  destruct (N.eqb_spec b SEP) as [Eb|Hb].
  2: { unfold SEP in Hb. not_sep b Hb. }
  subst b. destruct s2 as [|c s3]; [reflexivity|].
  destruct (N.eqb_spec c SEP) as [Ec|Hc]; [now subst c|].
  unfold SEP in Hc. not_sep c Hc.
Qed.

(** A suffix that does not start with a separator leaves the anchor. *)
Lemma splitroot_suffix (s e : pystr) (x : N) :
  N.eqb x SEP = false -> splitroot (s ++ x :: e) = splitroot s.
Proof.
  intros Hx. rewrite !splitroot_eqb.
  destruct s as [|a [|b [|c s]]]; cbn [app]; cbv iota; rewrite ?Hx;
    repeat match goal with
           | |- context [N.eqb ?v SEP] => destruct (N.eqb v SEP)
           end; reflexivity.
Qed.


Lemma keep_part_suffixed (l e : pystr) :
  (2 <= List.length e)%nat -> keep_part (l ++ e) = true.
Proof.
  intros He. unfold keep_part. rewrite truthy_app_r.
  - simpl. apply negb_true_iff. apply str_eqb_neq. intros E.
    apply (f_equal (@List.length N)) in E. rewrite length_app in E.
    simpl in E. lia.
  - destruct e; [simpl in He; lia | reflexivity].
Qed.

(** The path parsed from an identifier with one of the two suffixes. *)
Lemma parse_suffixed (pkg e : pystr) (x : N) :
  existsb (N.eqb SEP) (x :: e) = false ->
  (1 <= List.length e)%nat ->
  parse (pkg ++ x :: e) =
  mkPath (splitroot pkg) (stem_parts pkg ++ [leaf pkg ++ x :: e]).
Proof.
  intros Hs He. unfold parse, stem_parts, leaf.
  rewrite splitroot_suffix.
  - rewrite (split_on_suffix SEP pkg (x :: e) Hs).
    rewrite filter_app. cbn [filter].
    rewrite keep_part_suffixed by (simpl; lia). reflexivity.
  - simpl in Hs. apply orb_false_iff in Hs as [Hx _].
    now rewrite N.eqb_sym.
Qed.

Lemma parse_apk (pkg : pystr) :
  parse (pkg ++ py ".apk") =
  mkPath (splitroot pkg) (stem_parts pkg ++ [leaf pkg ++ py ".apk"]).
Proof.
  apply (parse_suffixed pkg (py "apk") 46%N); [reflexivity | simpl; lia].
Qed.

Lemma parse_zip (pkg : pystr) :
  parse (pkg ++ py ".zip") =
  mkPath (splitroot pkg) (stem_parts pkg ++ [leaf pkg ++ py ".zip"]).
Proof.
  apply (parse_suffixed pkg (py "zip") 46%N); [reflexivity | simpl; lia].
Qed.

Lemma parse_bare (pkg : pystr) :
  parse pkg =
  mkPath (splitroot pkg)
    (stem_parts pkg ++ if keep_part (leaf pkg) then [leaf pkg] else []).
Proof.
  unfold parse, stem_parts, leaf.
  rewrite (split_on_last SEP pkg) at 1. rewrite filter_app. cbn [filter].
  now destruct (keep_part (last (split_on SEP pkg) [])).
Qed.

End AnyPaths.

Section AnyResolve.

Variable host : Host.
Variable self : Apkeep.
Variable pkg : pystr.

Lemma resolve_joined (key : pystr) (ps : list pystr) :
  parse key = mkPath (splitroot pkg) (stem_parts pkg ++ ps) ->
  resolve host (joinpath (temp_folder (config self)) key) =
  stem host self pkg ++ ps.
Proof.
  intros E. unfold joinpath, stem. rewrite E. cbn [anchor parts].
  destruct (truthy (splitroot pkg)) eqn:A.
  - unfold resolve. cbn [anchor parts]. now rewrite A.
  - unfold resolve. cbn [anchor parts].
    destruct (truthy (anchor (temp_folder (config self))));
      now rewrite <- ?app_assoc.
Qed.

Lemma resolve_file_path :
  resolve host (file_path_of self pkg) = stem host self pkg ++ [leaf pkg ++ py ".apk"].
Proof.
  apply resolve_joined. apply parse_apk.
Qed.

Lemma resolve_zip_path :
  resolve host (zip_path_of self pkg) = stem host self pkg ++ [leaf pkg ++ py ".zip"].
Proof.
  apply resolve_joined. apply parse_zip.
Qed.

Lemma resolve_folder_path :
  resolve host (folder_path_of self pkg) =
  stem host self pkg ++ if keep_part (leaf pkg) then [leaf pkg] else [].
Proof. apply resolve_joined. apply parse_bare. Qed.

Lemma file_zip_differ :
  resolve host (file_path_of self pkg) <> resolve host (zip_path_of self pkg).
Proof.
  rewrite resolve_file_path, resolve_zip_path. intros E.
  apply app_inv_head in E. injection E as E. apply app_inv_head in E.
  discriminate.
Qed.

Lemma zip_name_leaf : name (zip_path_of self pkg) = leaf pkg ++ py ".zip".
Proof.
  unfold zip_path_of, joinpath.
  rewrite parse_zip.
  cbn [anchor parts]. unfold name.
  destruct (truthy (splitroot pkg)); cbn [parts];
    rewrite ?app_assoc; apply last_last.
Qed.

End AnyResolve.

(* ================================================================== *)
(** ** The seven paths, with their tests *)
(* ================================================================== *)

Lemma run_outcome (host : Host) (self : Apkeep) (pkg : pystr) (w : World) :
  outcome host self pkg w (_run_apkeep host self pkg w).
Proof.
  destruct (truthy (email_of self)) eqn:He;
    [|rewrite run_no_credentials by auto; constructor; auto].
  destruct (truthy (token_of self)) eqn:Ht;
    [|rewrite run_no_credentials by auto; constructor; auto].
  destruct (present host (root w) (file_path_of self pkg)) eqn:Hf;
    [rewrite run_cached_file by auto; constructor; auto|].
  destruct (present host (root w) (zip_path_of self pkg)) eqn:Hz;
    [rewrite run_cached_zip by auto; constructor; auto|].
  assert (Hm : cache_miss host self pkg w) by (repeat split; assumption).
  destruct (Z.eq_dec (returncode (tool_run host self pkg (root w))) 0) as [Hrc|Hrc];
    [|rewrite run_tool_failed by auto; constructor; auto].
  destruct (present host (root_after (tool_run host self pkg (root w)))
                    (file_path_of self pkg)) eqn:Hf';
    [rewrite run_single_file by auto; constructor; auto|].
  destruct (dir_at host (root_after (tool_run host self pkg (root w)))
                   (folder_path_of self pkg)) eqn:Hd.
  - rewrite run_packed by auto. constructor; auto.
  - rewrite run_not_found by auto. constructor; auto.
Qed.

Section OutcomeFacts.

Variable host : Host.
Variable self : Apkeep.
Variable pkg : pystr.

Lemma cache_missb_true (w : World) :
  cache_miss host self pkg w -> cache_missb host self pkg w = true.
Proof.
  intros (He & Ht & Hf & Hz). unfold cache_missb. now rewrite He, Ht, Hf, Hz.
Qed.

Lemma cache_missb_no_credentials (w : World) :
  truthy (email_of self) = false \/ truthy (token_of self) = false ->
  cache_missb host self pkg w = false.
Proof.
  unfold cache_missb. intros [-> | ->]; [reflexivity|].
  now rewrite andb_false_r.
Qed.

Lemma cache_missb_file (w : World) :
  present host (root w) (file_path_of self pkg) = true ->
  cache_missb host self pkg w = false.
Proof.
  unfold cache_missb. intros ->. cbn [negb]. now rewrite andb_false_r.
Qed.

Lemma cache_missb_zip (w : World) :
  present host (root w) (zip_path_of self pkg) = true ->
  cache_missb host self pkg w = false.
Proof.
  unfold cache_missb. intros ->. cbn [negb]. now rewrite andb_false_r.
Qed.

Lemma pack_events_filtered (p : Event -> bool) (evs : list Event) :
  (forall e, is_pack_event e = true -> p e = false) ->
  forallb is_pack_event evs = true -> filter p evs = [].
Proof.
  intros Hp. induction evs as [|e evs IH]; simpl; [reflexivity|].
  intros H. apply andb_true_iff in H as [He Hr].
  now rewrite (Hp e He), IH.
Qed.

(** What the packing path adds to the trace, seen through a filter that
    lets no event of the loop pass. *)
Lemma packed_trace_filtered (p : Event -> bool) (w2 : World) :
  (forall e, is_pack_event e = true -> p e = false) ->
  filter p (trace (snd ((pack_folder host self (folder_path_of self pkg)
                           (zip_path_of self pkg) ;;
                         ret (name (zip_path_of self pkg))) w2))) =
  filter p (trace w2).
Proof.
  intros Hp. rewrite then_ret_snd.
  destruct (pack_folder_packs host self (folder_path_of self pkg)
              (zip_path_of self pkg) w2) as [_ (evs & T & Q)].
  rewrite T, filter_app, (pack_events_filtered p evs Hp Q).
  apply app_nil_r.
Qed.

End OutcomeFacts.

(** X1.  A call starts the tool at most once, and exactly when both
    credentials are set and neither the file nor the archive is there.
    The argument list is [apkeep -a <package> -d google-play -e <email>
    -t <token> -o split_apk=true <temp folder name>]. *)
Theorem X1_spawn_once
  (host : Host) (self : Apkeep) (pkg : pystr) (w : World) :
  filter is_spawn (trace (snd (_run_apkeep host self pkg w))) =
  filter is_spawn (trace w) ++
  if cache_missb host self pkg w then
    [EvSpawn [py "apkeep"; py "-a"; pkg; py "-d"; py "google-play";
              py "-e"; env (config self) (py "APKEEP_EMAIL");
              py "-t"; env (config self) (py "APKEEP_TOKEN");
              py "-o"; py "split_apk=true"; temp_folder_name (config self)]]
  else [].
Proof.
  pose proof (run_outcome host self pkg w) as P.
  inversion P as [H E | He Ht Hf E | He Ht Hf Hz E | Hm Hrc E | Hm Hrc Hf' E
                 | Hm Hrc Hf' Hd E | Hm Hrc Hf' Hd E]; clear P.
  - rewrite cache_missb_no_credentials by exact H. now rewrite app_nil_r.
  - rewrite cache_missb_file by exact Hf. cbn [snd logged trace].
    rewrite filter_app. reflexivity.
  - rewrite cache_missb_zip by exact Hz. cbn [snd logged trace].
    rewrite filter_app. reflexivity.
  - rewrite cache_missb_true by exact Hm. cbn [snd spawned trace].
    rewrite filter_app. reflexivity.
  - rewrite cache_missb_true by exact Hm. cbn [snd logged spawned trace].
    rewrite !filter_app. cbn [filter is_spawn]. now rewrite app_nil_r.
  - rewrite cache_missb_true by exact Hm. cbn [snd logged spawned trace].
    rewrite !filter_app. cbn [filter is_spawn].
    destruct (present host _ (folder_path_of self pkg));
      cbn [filter is_spawn app]; now rewrite app_nil_r.
  - rewrite cache_missb_true by exact Hm.
    rewrite packed_trace_filtered by (now intros []).
    cbn [logged spawned trace]. rewrite !filter_app. cbn [filter is_spawn].
    now rewrite app_nil_r.
Qed.

(** X2.  A call logs at [INFO] level at most once: when the tool was
    started and has exited with status zero, and then the message is
    [apkeep completed for <package> in <elapsed> seconds.]; a call that
    finds its result on disk, or whose tool fails, logs nothing. *)
Theorem X2_completion_log
  (host : Host) (self : Apkeep) (pkg : pystr) (w : World) :
  filter is_info (trace (snd (_run_apkeep host self pkg w))) =
  filter is_info (trace w) ++
  if cache_missb host self pkg w &&
     (returncode (tool_run host self pkg (root w)) =? 0)%Z
  then [EvLog INFO (py "apkeep completed for " ++ pkg ++ py " in " ++
                    elapsed (tool_run host self pkg (root w)) ++ py " seconds.")]
  else [].
Proof.
  pose proof (run_outcome host self pkg w) as P.
  inversion P as [H E | He Ht Hf E | He Ht Hf Hz E | Hm Hrc E | Hm Hrc Hf' E
                 | Hm Hrc Hf' Hd E | Hm Hrc Hf' Hd E]; clear P.
  - rewrite cache_missb_no_credentials by exact H. now rewrite app_nil_r.
  - rewrite cache_missb_file by exact Hf. cbn [snd logged trace].
    rewrite filter_app. reflexivity.
  - rewrite cache_missb_zip by exact Hz. cbn [snd logged trace].
    rewrite filter_app. reflexivity.
  - apply Z.eqb_neq in Hrc. rewrite Hrc, andb_false_r.
    cbn [snd spawned trace]. rewrite filter_app. reflexivity.
  - rewrite cache_missb_true by exact Hm. rewrite Hrc.
    cbn [snd logged spawned trace]. rewrite !filter_app.
    cbn [filter is_info app andb Z.eqb]. now rewrite app_nil_r.
  - rewrite cache_missb_true by exact Hm. rewrite Hrc.
    cbn [snd logged spawned trace]. rewrite !filter_app.
    destruct (present host _ (folder_path_of self pkg));
      cbn [filter is_info app andb Z.eqb]; now rewrite app_nil_r.
  - rewrite cache_missb_true by exact Hm. rewrite Hrc.
    rewrite packed_trace_filtered by (now intros []).
    cbn [logged spawned trace]. rewrite !filter_app.
    cbn [filter is_info app andb Z.eqb]. now rewrite app_nil_r.
Qed.

(** X3.  Whatever the outcome of a call, every path of the file system
    other than the archive path shows afterwards what the tool left
    there, or what was there before the call when the tool was not
    started: the same file content, a directory, or nothing. *)
Theorem X3_only_archive_path
  (host : Host) (self : Apkeep) (pkg : pystr) (w : World) (qs : list pystr) :
  qs <> resolve host (zip_path_of self pkg) ->
  seen (walk (root (snd (_run_apkeep host self pkg w))) qs) =
  seen (walk (if cache_missb host self pkg w
              then root_after (tool_run host self pkg (root w))
              else root w) qs).
Proof.
  intros Hq. pose proof (run_outcome host self pkg w) as P.
  inversion P as [H E | He Ht Hf E | He Ht Hf Hz E | Hm Hrc E | Hm Hrc Hf' E
                 | Hm Hrc Hf' Hd E | Hm Hrc Hf' Hd E]; clear P.
  - now rewrite cache_missb_no_credentials.
  - now rewrite cache_missb_file.
  - now rewrite cache_missb_zip.
  - now rewrite cache_missb_true.
  - now rewrite cache_missb_true.
  - now rewrite cache_missb_true.
  - rewrite cache_missb_true by exact Hm. rewrite then_ret_snd.
    match goal with
    | |- context [pack_folder host self ?f ?z ?w2] =>
        destruct (pack_folder_packs host self f z w2) as [(A & _) _]
    end.
    now rewrite A.
Qed.

Section SecondCall.

Variable host : Host.
Variable self : Apkeep.
Variable pkg : pystr.

Lemma write_file_present (p : Path) (d : FileData) (w : World) :
  (present host (root w) p = true \/ fst (write_file host p d w) = Ok tt) ->
  present host (root (snd (write_file host p d w))) p = true.
Proof.
  unfold write_file. destruct (put (resolve host p) d (root w)) as [r|] eqn:P;
    cbn [fst snd root].
  - intros _. unfold present, stat. now rewrite (put_here _ _ _ _ P).
  - intros [H|H]; [exact H | discriminate].
Qed.

Lemma zip_write_present (zp file arc : Path) (w : World) :
  present host (root w) zp = true ->
  present host (root (snd (zip_write host zp file arc w))) zp = true.
Proof.
  intros H. unfold zip_write, bind, emit. cbn [root trace].
  destruct (stat host (root w) zp) as [[[b|m es]|c]|]; cbn [snd root]; auto.
  destruct (stat host (root w) file) as [[d|c]|]; cbn [snd root]; auto;
    apply write_file_present; now left.
Qed.

(** When the packing returns, the archive is there. *)
Lemma pack_folder_present (folder zp : Path) (w : World) :
  fst (pack_folder host self folder zp w) = Ok tt ->
  present host (root (snd (pack_folder host self folder zp w))) zp = true.
Proof.
  unfold pack_folder, zip_open, rglob_star, bind, emit. cbn [root trace].
  pose proof (write_file_present zp (Archive ZIP_DEFLATED [])
                (mkWorld (root w) (trace w ++ [EvZipOpen zp ZIP_DEFLATED]))) as H0.
  destruct (write_file host zp (Archive ZIP_DEFLATED []) _) as [[[]|e] w1];
    cbn [fst snd root trace] in *; [|discriminate].
  intros _. specialize (H0 (or_intror eq_refl)).
  apply (for_each_keeps
           (fun a b => present host (root a) zp = true ->
                       present host (root b) zp = true)); auto.
  intros file w2.
  destruct (relative_to file (temp_folder (config self)));
    [apply zip_write_present | auto].
Qed.

End SecondCall.

(** X4.  A call that has returned a name can be repeated: the second
    call, made in the world the first one left, returns the same name,
    and all it does is to look whether the file path, and then perhaps
    the archive path, exists; the tool is not started again and the
    file system stays as it is. *)
Theorem X4_second_call
  (host : Host) (self : Apkeep) (pkg : pystr) (w : World) (f : pystr) :
  fst (_run_apkeep host self pkg w) = Ok f ->
  exists evs,
    _run_apkeep host self pkg (snd (_run_apkeep host self pkg w)) =
      (Ok f, logged (snd (_run_apkeep host self pkg w)) evs) /\
    (evs = [EvExists (file_path_of self pkg)] \/
     evs = [EvExists (file_path_of self pkg); EvExists (zip_path_of self pkg)]).
Proof.
  pose proof (run_outcome host self pkg w) as P.
  inversion P as [H E | He Ht Hf E | He Ht Hf Hz E | Hm Hrc E | Hm Hrc Hf' E
                 | Hm Hrc Hf' Hd E | Hm Hrc Hf' Hd E]; clear P;
    cbn [fst snd]; intros F; try discriminate.
  - injection F as <-. eexists. split; [|left; reflexivity].
    now apply run_cached_file.
  - injection F as <-. eexists. split; [|right; reflexivity].
    now apply run_cached_zip.
  - injection F as <-. destruct Hm as (He & Ht & _).
    eexists. split; [|left; reflexivity].
    now apply run_cached_file.
  - destruct Hm as (He & Ht & _).
    rewrite then_ret_fst in F. rewrite then_ret_snd.
    match type of F with
    | context [pack_folder host self ?fo ?z ?w2] =>
        pose proof (pack_folder_present host self fo z w2) as Hz';
        destruct (pack_folder_packs host self fo z w2) as [(A & _) _];
        destruct (fst (pack_folder host self fo z w2)) as [[]|e];
        [|discriminate]
    end.
    injection F as <-. specialize (Hz' eq_refl).
    eexists. split; [|right; reflexivity].
    apply run_cached_zip; try assumption.
    unfold present, stat in *.
    specialize (A _ (file_zip_differ host self pkg)).
    cbn [logged spawned root] in A.
    destruct (walk (root_after (tool_run host self pkg (root w)))
                (resolve host (file_path_of self pkg))); [discriminate|].
    destruct (walk _ (resolve host (file_path_of self pkg))) as [[x|c]|];
      [discriminate A | discriminate A | reflexivity].
Qed.

(** X5.  When the tool has exited with status zero and the file path
    exists, the call returns [<package>.apk] at once: the folder path is
    not looked at, nothing is packed even if a folder is there as well,
    and the file system is the one the tool left. *)
Theorem X5_single_file_first
  (host : Host) (self : Apkeep) (pkg : pystr) (w : World) :
  cache_miss host self pkg w ->
  returncode (tool_run host self pkg (root w)) = 0%Z ->
  present host (root_after (tool_run host self pkg (root w)))
    (file_path_of self pkg) = true ->
  _run_apkeep host self pkg w =
  (Ok (pkg ++ py ".apk"),
   mkWorld (root_after (tool_run host self pkg (root w)))
     (trace w ++
      [EvExists (file_path_of self pkg);
       EvExists (zip_path_of self pkg);
       EvSpawn (cmd_of self pkg (email_of self) (token_of self));
       EvLog INFO (completed_msg pkg (elapsed (tool_run host self pkg (root w))));
       EvExists (file_path_of self pkg)])).
Proof.
  intros (He & Ht & Hf & Hz) Hrc Hf'.
  rewrite run_single_file by assumption.
  unfold logged, spawned. cbn [root trace]. now rewrite <- app_assoc.
Qed.

(** X6.  When the tool has exited with status zero, the file path does
    not exist and a regular file stands at the folder path, the call
    fails like a call that finds nothing: with the [DownloadError] that
    names the two paths, after a look at the kind of the folder path,
    and with the file system as the tool left it. *)
Theorem X6_folder_is_a_file
  (host : Host) (self : Apkeep) (pkg : pystr) (w : World) (x : FileData) :
  cache_miss host self pkg w ->
  returncode (tool_run host self pkg (root w)) = 0%Z ->
  present host (root_after (tool_run host self pkg (root w)))
    (file_path_of self pkg) = false ->
  stat host (root_after (tool_run host self pkg (root w)))
    (folder_path_of self pkg) = Some (File x) ->
  _run_apkeep host self pkg w =
  (Raise (DownloadError
     (py "APK not found after apkeep. Expected " ++
      fspath (file_path_of self pkg) ++ py " or " ++
      fspath (folder_path_of self pkg))),
   mkWorld (root_after (tool_run host self pkg (root w)))
     (trace w ++
      [EvExists (file_path_of self pkg);
       EvExists (zip_path_of self pkg);
       EvSpawn (cmd_of self pkg (email_of self) (token_of self));
       EvLog INFO (completed_msg pkg (elapsed (tool_run host self pkg (root w))));
       EvExists (file_path_of self pkg);
       EvExists (folder_path_of self pkg);
       EvIsDir (folder_path_of self pkg)])).
Proof.
  intros (He & Ht & Hf & Hz) Hrc Hf' Hx.
  rewrite run_not_found; try assumption.
  - unfold present. rewrite Hx. unfold logged, spawned. cbn [root trace].
    now rewrite <- app_assoc.
  - unfold dir_at. now rewrite Hx.
Qed.

Lemma put_on_dir (ps : list pystr) (d : FileData) :
  forall n c, walk n ps = Some (Dir c) -> put ps d n = None.
Proof.
  induction ps as [|p ps IH]; intros n c W; [reflexivity|].
  rewrite put_cons. simpl in W. destruct n as [y|ch]; [reflexivity|].
  destruct (find p ch) as [m|]; [|discriminate].
  destruct ps as [|p2 ps].
  - simpl in W. injection W as ->. reflexivity.
  - now rewrite (IH _ _ W).
Qed.

(** X7.  When the folder is to be packed and a directory stands at the
    archive path, the archive cannot be opened: the call fails with
    [OSError], not with [DownloadError], nothing has been written and
    the file system is the one the tool left. *)
Theorem X7_archive_path_is_a_directory
  (host : Host) (self : Apkeep) (pkg : pystr) (w : World) :
  cache_miss host self pkg w ->
  returncode (tool_run host self pkg (root w)) = 0%Z ->
  present host (root_after (tool_run host self pkg (root w)))
    (file_path_of self pkg) = false ->
  dir_at host (root_after (tool_run host self pkg (root w)))
    (folder_path_of self pkg) = true ->
  dir_at host (root_after (tool_run host self pkg (root w)))
    (zip_path_of self pkg) = true ->
  _run_apkeep host self pkg w =
  (Raise OSError,
   mkWorld (root_after (tool_run host self pkg (root w)))
     (trace w ++
      [EvExists (file_path_of self pkg);
       EvExists (zip_path_of self pkg);
       EvSpawn (cmd_of self pkg (email_of self) (token_of self));
       EvLog INFO (completed_msg pkg (elapsed (tool_run host self pkg (root w))));
       EvExists (file_path_of self pkg);
       EvExists (folder_path_of self pkg);
       EvIsDir (folder_path_of self pkg);
       EvZipOpen (zip_path_of self pkg) ZIP_DEFLATED])).
Proof.
  intros (He & Ht & Hf & Hz) Hrc Hf' Hd Hzd.
  rewrite run_packed by assumption.
  unfold pack_folder, zip_open, write_file, bind, emit, logged, spawned.
  cbn [root trace].
  unfold dir_at, stat in Hzd.
  destruct (walk (root_after (tool_run host self pkg (root w)))
              (resolve host (zip_path_of self pkg))) as [[y|c]|] eqn:W;
    try discriminate.
  rewrite (put_on_dir _ _ _ _ W). now rewrite <- !app_assoc.
Qed.

(* ================================================================== *)
(** ** The name of the archive *)
(* ================================================================== *)

Lemma split_on_snoc_sep (c : N) (s : pystr) :
  split_on c (s ++ [c]) = split_on c s ++ [[]].
Proof.
  induction s as [|x s IH].
  - simpl. now rewrite N.eqb_refl.
  - destruct (split_on_cons c x s) as (f & fs & E & E').
    destruct (split_on_cons c x (s ++ [c])) as (g & gs & G & G').
    rewrite E'. change ((x :: s) ++ [c]) with (x :: (s ++ [c])). rewrite G'.
    rewrite IH, E in G. simpl in G.
    injection G as <- <-. destruct (N.eqb x c); reflexivity.
Qed.

(** The leaf of an identifier is what follows its last separator. *)
Lemma leaf_spec (pkg : pystr) :
  exists pre,
    pkg = pre ++ leaf pkg /\
    existsb (N.eqb SEP) (leaf pkg) = false /\
    (pre = [] \/ exists p, pre = p ++ [SEP]).
Proof.
  unfold leaf. induction pkg as [|x s IH] using rev_ind.
  - exists []. auto.
  - destruct IH as (pre & E & Hs & Hp).
    destruct (N.eqb_spec SEP x) as [<-|Hx].
    + rewrite split_on_snoc_sep, last_last.
      exists (s ++ [SEP]). rewrite app_nil_r. repeat split; eauto.
    + assert (He : existsb (N.eqb SEP) [x] = false).
      { cbn [existsb]. apply N.eqb_neq in Hx. now rewrite Hx. }
      rewrite (split_on_suffix SEP s [x] He), last_last.
      exists pre. split; [|split; [|exact Hp]].
      * rewrite app_assoc. now rewrite <- E.
      * now rewrite existsb_app, Hs, He.
Qed.

(** X8.  The name a successful call returns is [<package>.apk], or else
    the text of the package identifier after its last separator,
    followed by [.zip]. *)
Theorem X8_returned_name
  (host : Host) (self : Apkeep) (pkg : pystr) (w : World) (f : pystr) :
  fst (_run_apkeep host self pkg w) = Ok f ->
  f = pkg ++ py ".apk" \/
  exists pre l,
    pkg = pre ++ l /\
    existsb (N.eqb SEP) l = false /\
    (pre = [] \/ exists p, pre = p ++ [SEP]) /\
    f = l ++ py ".zip".
Proof.
  intros H. apply run_returns in H as [H|H]; [now left | right].
  destruct (leaf_spec pkg) as (pre & E & Hs & Hp).
  exists pre, (leaf pkg). repeat split; try assumption.
  now rewrite <- (zip_name_leaf self pkg).
Qed.

(* ================================================================== *)
(** ** The text of a failure *)
(* ================================================================== *)

Lemma lstrip_head (s : pystr) :
  lstrip s = [] \/ exists c t, lstrip s = c :: t /\ isspace c = false.
Proof.
  induction s as [|c s IH]; simpl; [now left|].
  destruct (isspace c) eqn:E; [exact IH | right; eauto].
Qed.

Lemma lstrip_snoc (a : pystr) (c : N) :
  isspace c = false ->
  exists v, lstrip (a ++ [c]) = v ++ [c] /\
            (v = [] \/ exists d v', v = d :: v' /\ isspace d = false).
Proof.
  intros Hc. induction a as [|x a IH]; simpl.
  - rewrite Hc. exists []. auto.
  - destruct (isspace x) eqn:E; [exact IH|].
    exists (x :: a). split; [reflexivity | right; eauto].
Qed.

(** What [strip] returns neither starts nor ends with white space. *)
Lemma strip_trimmed (s : pystr) :
  strip s = [] \/
  ((exists c t, strip s = c :: t /\ isspace c = false) /\
   (exists t c, strip s = t ++ [c] /\ isspace c = false)).
Proof.
  unfold strip, rstrip.
  destruct (lstrip_head s) as [-> | (c & t & -> & Hc)]; [now left | right].
  simpl rev.
  destruct (lstrip_snoc (rev t) c Hc) as (v & -> & Hv).
  rewrite rev_app_distr. simpl. split; [eauto|].
  destruct Hv as [-> | (d & v' & -> & Hd)].
  - exists [], c. auto.
  - simpl. exists (c :: rev v'), d. auto.
Qed.

Lemma lstrip_spaces (s : pystr) : forallb isspace s = true -> lstrip s = [].
Proof.
  induction s as [|c s IH]; simpl; [reflexivity|].
  intros H. apply andb_true_iff in H as [-> Hs]. auto.
Qed.

(** X9.  The error text that ends the message of a failed run neither
    starts nor ends with white space: a trailing newline of the error
    stream, for one, does not reach the message. *)
Theorem X9_error_text_trimmed
  (host : Host) (self : Apkeep) (pkg : pystr) (w : World) :
  cache_miss host self pkg w ->
  returncode (tool_run host self pkg (root w)) <> 0%Z ->
  exists text,
    fst (_run_apkeep host self pkg w) =
      Raise (DownloadError
        (py "apkeep failed with exit code " ++
         str_of_int (returncode (tool_run host self pkg (root w))) ++
         py " for " ++ pkg ++ py ": " ++ text)) /\
    (text = [] \/
     ((exists c t, text = c :: t /\ isspace c = false) /\
      (exists t c, text = t ++ [c] /\ isspace c = false))).
Proof.
  intros (He & Ht & Hf & Hz) Hrc.
  rewrite run_tool_failed by assumption. cbn [fst].
  exists (err_output_of (stderr (tool_run host self pkg (root w)))).
  split; [reflexivity|]. unfold err_output_of.
  destruct (truthy (stderr (tool_run host self pkg (root w)))).
  - apply strip_trimmed.
  - right. split.
    + exists 110%N, (py "o details"). split; reflexivity.
    + exists (py "no detail"), 115%N. split; reflexivity.
Qed.

(** X10.  The placeholder stands in for an empty error stream only: when
    the stream is not empty but decodes to white space alone, the
    message ends after the colon and the blank that follow the package
    identifier. *)
Theorem X10_blank_error_text
  (host : Host) (self : Apkeep) (pkg : pystr) (w : World) :
  cache_miss host self pkg w ->
  returncode (tool_run host self pkg (root w)) <> 0%Z ->
  stderr (tool_run host self pkg (root w)) <> [] ->
  forallb isspace (decode_replace (stderr (tool_run host self pkg (root w)))) = true ->
  fst (_run_apkeep host self pkg w) =
    Raise (DownloadError
      (py "apkeep failed with exit code " ++
       str_of_int (returncode (tool_run host self pkg (root w))) ++
       py " for " ++ pkg ++ py ": ")).
Proof.
  intros (He & Ht & Hf & Hz) Hrc Hne Hsp.
  rewrite run_tool_failed by assumption. cbn [fst].
  unfold failed_msg, err_output_of.
  destruct (stderr (tool_run host self pkg (root w))) as [|b bs] eqn:E;
    [congruence|].
  cbn [truthy]. unfold strip, rstrip. rewrite (lstrip_spaces _ Hsp).
  reflexivity.
Qed.

(** X11.  [specific_version] and [latest_version] differ by the warning
    alone: called on the same file system they give the same result, be
    it the pair of file name and URI or the exception, and leave the
    same file system. *)
Theorem X11_same_effect
  (host : Host) (self : Apkeep) (app : APP) (version : pystr) (w : World) :
  fst (specific_version host self app version w) =
    fst (latest_version host self app w) /\
  root (snd (specific_version host self app version w)) =
    root (snd (latest_version host self app w)).
Proof.
  rewrite specific_version_run, !latest_version_run. cbn [fst snd].
  destruct (blind_run_apkeep host self (package_name app)
              (logged w [EvLog WARNING (pinning_msg (package_name app) version)])
              w eq_refl) as [-> ->].
  split; reflexivity.
Qed.

(* ================================================================== *)
(** ** An anchored package identifier *)
(* ================================================================== *)

Lemma put_parent (c : list pystr) (a : pystr) (d : FileData) :
  forall n n' ch, put (c ++ [a]) d n = Some n' ->
  walk n c = Some (Dir ch) ->
  walk n' c = Some (Dir (bind_child a (File d) ch)).
Proof.
  induction c as [|p c IH]; intros n n' ch H W.
  - simpl in W. injection W as ->. simpl in H.
    destruct (find a ch) as [[y|x]|]; inversion H; reflexivity.
  - simpl app in H. rewrite put_cons in H. simpl in W.
    destruct n as [y|ch0]; [discriminate|].
    destruct (c ++ [a]) as [|z zs] eqn:E; [now destruct c|].
    destruct (find p ch0) as [m|] eqn:F; [|discriminate].
    destruct (put (z :: zs) d m) as [m'|] eqn:P; [|discriminate].
    inversion H; subst n'. simpl. rewrite find_bind_same.
    now apply IH with m.
Qed.

Section Anchored.

Variable host : Host.
Variable self : Apkeep.
Variable pkg : pystr.

Hypothesis anchored : truthy (splitroot pkg) = true.
Hypothesis relative : anchor (temp_folder (config self)) = [].

Lemma folder_anchor : anchor (folder_path_of self pkg) = splitroot pkg.
Proof.
  unfold folder_path_of, joinpath. rewrite parse_bare. cbn [anchor].
  now rewrite anchored.
Qed.

(** No path below the folder is relative to the temporary folder. *)
Lemma not_below_temp (rel : list pystr) :
  relative_to
    (mkPath (anchor (folder_path_of self pkg))
            (parts (folder_path_of self pkg) ++ rel))
    (temp_folder (config self)) = None.
Proof.
  unfold relative_to. cbn [anchor parts]. rewrite folder_anchor, relative.
  destruct (splitroot pkg); [discriminate | reflexivity].
Qed.

(** Packing a folder that is not empty: the archive is created, and the
    first entry found stops the loop. *)
Lemma pack_folder_anchored (w : World) (kv : pystr * Node)
      (ch : list (pystr * Node)) :
  stat host (root w) (folder_path_of self pkg) = Some (Dir (kv :: ch)) ->
  dir_at host (root w) (zip_path_of self pkg) = false ->
  exists r1,
    put (resolve host (zip_path_of self pkg)) (Archive ZIP_DEFLATED []) (root w) =
      Some r1 /\
    pack_folder host self (folder_path_of self pkg) (zip_path_of self pkg) w =
      (Raise ValueError,
       mkWorld r1 (trace w ++ [EvZipOpen (zip_path_of self pkg) ZIP_DEFLATED;
                               EvRglob (folder_path_of self pkg)])).
Proof.
  intros Hd Hz. unfold stat, dir_at, stat in *.
  pose proof (resolve_zip_path host self pkg) as Ez.
  pose proof (resolve_folder_path host self pkg) as Ef.
  rewrite Ez in Hz. rewrite Ef in Hd.
  (* the directory in which the archive is created *)
  pose proof Hd as Hd0. rewrite walk_app in Hd0.
  destruct (walk (root w) (stem host self pkg)) as [m|] eqn:Ws; [|discriminate].
  assert (Hm : exists chS, m = Dir chS).
  { destruct m as [y|chS]; [|eauto].
    destruct (keep_part (leaf pkg)); simpl in Hd0; discriminate. }
  destruct Hm as [chS ->].
  destruct (put_ok (stem host self pkg) (leaf pkg ++ py ".zip")
              (Archive ZIP_DEFLATED []) (root w) chS Ws) as [r1 Hput].
  { intros x E. rewrite walk_app, Ws in Hz. simpl in Hz.
    unfold pystr in *. rewrite E in Hz. discriminate. }
  exists r1. rewrite Ez. split; [exact Hput|].
  (* the folder is still a directory with an entry *)
  assert (Hn : exists e es,
    walk r1 (resolve host (folder_path_of self pkg)) = Some (Dir (e :: es))).
  { rewrite Ef. destruct (keep_part (leaf pkg)).
    - exists kv, ch.
      rewrite (put_beside _ _ (leaf pkg) _ (zip_name_differs (leaf pkg))
                 _ _ [] Hput).
      exact Hd.
    - rewrite app_nil_r. simpl in Hd0. injection Hd0 as ->.
      rewrite (put_parent _ _ _ _ _ _ Hput Ws).
      simpl. destruct kv as [k v].
      destruct (str_eqb k (leaf pkg ++ py ".zip")); eauto. }
  destruct Hn as (e & es & Hn).
  unfold pack_folder, zip_open, rglob_star, write_file, bind, emit.
  cbn [root trace]. rewrite Ez. unfold pystr in *. rewrite Hput.
  cbn [root trace]. unfold stat. rewrite Hn.
  cbn [rglob_node map app for_each fst snd]. unfold bind.
  rewrite not_below_temp. unfold raise. now rewrite <- app_assoc.
Qed.

End Anchored.

Lemma anchored_identifier (pkg : pystr) :
  starts_with (py "/") pkg = true -> truthy (splitroot pkg) = true.
Proof.
  destruct pkg as [|a s]; [discriminate|]. cbn [py map list_ascii_of_string starts_with].
  intros H. apply andb_true_iff in H as [H _].
  change (N_of_ascii "/") with SEP in H. rewrite N.eqb_sym in H.
  rewrite splitroot_eqb, H.
  destruct s as [|b [|c s]]; [reflexivity | |];
    repeat match goal with
           | |- context [N.eqb ?v SEP] => destruct (N.eqb v SEP)
           end; reflexivity.
Qed.

(** X12.  A package identifier that starts with a separator names paths
    outside a relative temporary folder.  When the tool then leaves a
    folder that is not empty, the call creates the archive and fails at
    the first entry with [ValueError], not [DownloadError]; the empty
    archive stays on disk, and a second call returns its name as the
    result. *)
Theorem X12_anchored_identifier
  (host : Host) (self : Apkeep) (pkg : pystr) (w : World)
  (kv : pystr * Node) (ch : list (pystr * Node)) :
  starts_with (py "/") pkg = true ->
  anchor (temp_folder (config self)) = [] ->
  cache_miss host self pkg w ->
  returncode (tool_run host self pkg (root w)) = 0%Z ->
  present host (root_after (tool_run host self pkg (root w)))
    (file_path_of self pkg) = false ->
  stat host (root_after (tool_run host self pkg (root w)))
    (folder_path_of self pkg) = Some (Dir (kv :: ch)) ->
  dir_at host (root_after (tool_run host self pkg (root w)))
    (zip_path_of self pkg) = false ->
  fst (_run_apkeep host self pkg w) = Raise ValueError /\
  stat host (root (snd (_run_apkeep host self pkg w))) (zip_path_of self pkg) =
    Some (File (Archive ZIP_DEFLATED [])) /\
  fst (_run_apkeep host self pkg (snd (_run_apkeep host self pkg w))) =
    Ok (name (zip_path_of self pkg)).
Proof.
  intros Ha Hr (He & Ht & Hf & Hz) Hrc Hf' Hd Hz'.
  apply anchored_identifier in Ha.
  assert (Hda : dir_at host (root_after (tool_run host self pkg (root w)))
                  (folder_path_of self pkg) = true)
    by (unfold dir_at; now rewrite Hd).
  rewrite run_packed by assumption.
  destruct (pack_folder_anchored host self pkg Ha Hr
              (logged (spawned host self pkg w)
                 [EvLog INFO (completed_msg pkg
                      (elapsed (tool_run host self pkg (root w))));
                  EvExists (file_path_of self pkg);
                  EvExists (folder_path_of self pkg);
                  EvIsDir (folder_path_of self pkg)]) kv ch Hd Hz')
    as (r1 & Hput & Hpack).
  unfold bind. rewrite Hpack. cbn [fst snd root].
  assert (Hzip : stat host r1 (zip_path_of self pkg) =
                 Some (File (Archive ZIP_DEFLATED []))).
  { unfold stat. eapply put_here. exact Hput. }
  split; [reflexivity|]. split; [exact Hzip|].
  rewrite run_cached_zip; try assumption; [reflexivity | |].
  - cbn [root]. unfold present, stat in *.
    destruct (put_frame _ _ _ _ Hput) as (A & _).
    cbn [logged spawned root] in A.
    specialize (A _ (file_zip_differ host self pkg)).
    destruct (walk (root_after (tool_run host self pkg (root w)))
                (resolve host (file_path_of self pkg))); [discriminate|].
    destruct (walk r1 (resolve host (file_path_of self pkg))) as [[x|c]|];
      [discriminate A | discriminate A | reflexivity].
  - cbn [root]. unfold present. now rewrite Hzip.
Qed.

(** X13.  The exit status counts in the call that ran the tool only:
    when the tool fails but leaves a file at the file path, the call
    fails with [DownloadError], and a second call returns the name of
    that file without starting the tool. *)
Theorem X13_output_of_a_failed_run
  (host : Host) (self : Apkeep) (pkg : pystr) (w : World) :
  cache_miss host self pkg w ->
  returncode (tool_run host self pkg (root w)) <> 0%Z ->
  present host (root_after (tool_run host self pkg (root w)))
    (file_path_of self pkg) = true ->
  (exists m, fst (_run_apkeep host self pkg w) = Raise (DownloadError m)) /\
  _run_apkeep host self pkg (snd (_run_apkeep host self pkg w)) =
    (Ok (pkg ++ py ".apk"),
     logged (snd (_run_apkeep host self pkg w)) [EvExists (file_path_of self pkg)]).
Proof.
  intros (He & Ht & Hf & Hz) Hrc Hf'.
  rewrite run_tool_failed by assumption. cbn [fst snd].
  split; [eauto|]. now apply run_cached_file.
Qed.

(* ================================================================== *)
(** ** The further properties at work *)
(* ================================================================== *)

Lemma X3_only_archive_path_witness :
  [py "srv"; py "apks"; py "com.example.app"; py "base.apk"] <>
    resolve (Fixtures.tool 0 [] Fixtures.split_root)
      (zip_path_of Fixtures.me Fixtures.pkg) /\
  seen (walk (root (snd (_run_apkeep (Fixtures.tool 0 [] Fixtures.split_root)
                           Fixtures.me Fixtures.pkg
                           (Fixtures.start Fixtures.empty_root))))
          [py "srv"; py "apks"; py "com.example.app"; py "base.apk"]) =
  IsFile (Bytes [1%N]).
Proof.
  assert (H : [py "srv"; py "apks"; py "com.example.app"; py "base.apk"] <>
              resolve (Fixtures.tool 0 [] Fixtures.split_root)
                (zip_path_of Fixtures.me Fixtures.pkg)) by discriminate.
  split; [exact H|].
  rewrite (X3_only_archive_path (Fixtures.tool 0 [] Fixtures.split_root)
             Fixtures.me Fixtures.pkg (Fixtures.start Fixtures.empty_root) _ H).
  reflexivity.
Defined.

Lemma X4_second_call_witness :
  fst (_run_apkeep (Fixtures.tool 0 [] Fixtures.split_root) Fixtures.me
         Fixtures.pkg (Fixtures.start Fixtures.empty_root)) =
    Ok (py "com.example.app.zip") /\
  exists evs,
    _run_apkeep (Fixtures.tool 0 [] Fixtures.split_root) Fixtures.me Fixtures.pkg
      (snd (_run_apkeep (Fixtures.tool 0 [] Fixtures.split_root) Fixtures.me
              Fixtures.pkg (Fixtures.start Fixtures.empty_root))) =
    (Ok (py "com.example.app.zip"),
     logged (snd (_run_apkeep (Fixtures.tool 0 [] Fixtures.split_root) Fixtures.me
                    Fixtures.pkg (Fixtures.start Fixtures.empty_root))) evs) /\
    (evs = [EvExists (file_path_of Fixtures.me Fixtures.pkg)] \/
     evs = [EvExists (file_path_of Fixtures.me Fixtures.pkg);
            EvExists (zip_path_of Fixtures.me Fixtures.pkg)]).
Proof.
  split; [reflexivity|].
  apply (X4_second_call (Fixtures.tool 0 [] Fixtures.split_root) Fixtures.me
           Fixtures.pkg (Fixtures.start Fixtures.empty_root)).
  reflexivity.
Defined.

Lemma X5_single_file_first_witness :
  cache_miss (Fixtures.tool 0 [] Fixtures.both_root) Fixtures.me Fixtures.pkg
    (Fixtures.start Fixtures.empty_root) /\
  dir_at (Fixtures.tool 0 [] Fixtures.both_root) Fixtures.both_root
    (folder_path_of Fixtures.me Fixtures.pkg) = true /\
  fst (_run_apkeep (Fixtures.tool 0 [] Fixtures.both_root) Fixtures.me
         Fixtures.pkg (Fixtures.start Fixtures.empty_root)) =
    Ok (py "com.example.app.apk") /\
  root (snd (_run_apkeep (Fixtures.tool 0 [] Fixtures.both_root) Fixtures.me
               Fixtures.pkg (Fixtures.start Fixtures.empty_root))) =
    Fixtures.both_root.
Proof.
  assert (Hm : cache_miss (Fixtures.tool 0 [] Fixtures.both_root) Fixtures.me
                 Fixtures.pkg (Fixtures.start Fixtures.empty_root))
    by (repeat split).
  split; [exact Hm|]. split; [reflexivity|].
  rewrite (X5_single_file_first (Fixtures.tool 0 [] Fixtures.both_root)
             Fixtures.me Fixtures.pkg (Fixtures.start Fixtures.empty_root)
             Hm eq_refl eq_refl).
  split; reflexivity.
Defined.

Lemma X6_folder_is_a_file_witness :
  cache_miss (Fixtures.tool 0 [] Fixtures.file_as_folder_root) Fixtures.me
    Fixtures.pkg (Fixtures.start Fixtures.empty_root) /\
  stat (Fixtures.tool 0 [] Fixtures.file_as_folder_root)
    Fixtures.file_as_folder_root (folder_path_of Fixtures.me Fixtures.pkg) =
    Some (File Fixtures.apk_bytes) /\
  fst (_run_apkeep (Fixtures.tool 0 [] Fixtures.file_as_folder_root) Fixtures.me
         Fixtures.pkg (Fixtures.start Fixtures.empty_root)) =
    Raise (DownloadError
      (py "APK not found after apkeep. Expected apks/com.example.app.apk or apks/com.example.app")).
Proof.
  assert (Hm : cache_miss (Fixtures.tool 0 [] Fixtures.file_as_folder_root)
                 Fixtures.me Fixtures.pkg (Fixtures.start Fixtures.empty_root))
    by (repeat split).
  split; [exact Hm|]. split; [reflexivity|].
  rewrite (X6_folder_is_a_file (Fixtures.tool 0 [] Fixtures.file_as_folder_root)
             Fixtures.me Fixtures.pkg (Fixtures.start Fixtures.empty_root)
             Fixtures.apk_bytes Hm eq_refl eq_refl eq_refl).
  reflexivity.
Defined.

Lemma X7_archive_path_is_a_directory_witness :
  cache_miss (Fixtures.tool 0 [] Fixtures.dir_as_archive_root) Fixtures.me
    Fixtures.pkg (Fixtures.start Fixtures.empty_root) /\
  dir_at (Fixtures.tool 0 [] Fixtures.dir_as_archive_root)
    Fixtures.dir_as_archive_root (zip_path_of Fixtures.me Fixtures.pkg) = true /\
  fst (_run_apkeep (Fixtures.tool 0 [] Fixtures.dir_as_archive_root) Fixtures.me
         Fixtures.pkg (Fixtures.start Fixtures.empty_root)) = Raise OSError /\
  root (snd (_run_apkeep (Fixtures.tool 0 [] Fixtures.dir_as_archive_root)
               Fixtures.me Fixtures.pkg (Fixtures.start Fixtures.empty_root))) =
    Fixtures.dir_as_archive_root.
Proof.
  assert (Hm : cache_miss (Fixtures.tool 0 [] Fixtures.dir_as_archive_root)
                 Fixtures.me Fixtures.pkg (Fixtures.start Fixtures.empty_root))
    by (repeat split).
  split; [exact Hm|]. split; [reflexivity|].
  rewrite (X7_archive_path_is_a_directory
             (Fixtures.tool 0 [] Fixtures.dir_as_archive_root)
             Fixtures.me Fixtures.pkg (Fixtures.start Fixtures.empty_root)
             Hm eq_refl eq_refl eq_refl eq_refl).
  split; reflexivity.
Defined.

Lemma X8_returned_name_witness :
  fst (_run_apkeep (Fixtures.tool 0 [] Fixtures.odd_root) Fixtures.me
         Fixtures.odd_pkg (Fixtures.start Fixtures.odd_root)) = Ok (py "b.zip") /\
  (py "b.zip" = Fixtures.odd_pkg ++ py ".apk" \/
   exists pre l,
     Fixtures.odd_pkg = pre ++ l /\
     existsb (N.eqb SEP) l = false /\
     (pre = [] \/ exists p, pre = p ++ [SEP]) /\
     py "b.zip" = l ++ py ".zip").
Proof.
  split; [reflexivity|].
  apply (X8_returned_name (Fixtures.tool 0 [] Fixtures.odd_root) Fixtures.me
           Fixtures.odd_pkg (Fixtures.start Fixtures.odd_root)).
  reflexivity.
Defined.

Lemma X9_error_text_trimmed_witness :
  cache_miss (Fixtures.tool 1 Fixtures.boom_line Fixtures.empty_root)
    Fixtures.me Fixtures.pkg (Fixtures.start Fixtures.empty_root) /\
  exists text,
    fst (_run_apkeep (Fixtures.tool 1 Fixtures.boom_line Fixtures.empty_root)
           Fixtures.me Fixtures.pkg (Fixtures.start Fixtures.empty_root)) =
      Raise (DownloadError
        (py "apkeep failed with exit code " ++ str_of_int 1 ++
         py " for " ++ Fixtures.pkg ++ py ": " ++ text)) /\
    (text = [] \/
     ((exists c t, text = c :: t /\ isspace c = false) /\
      (exists t c, text = t ++ [c] /\ isspace c = false))).
Proof.
  assert (Hm : cache_miss (Fixtures.tool 1 Fixtures.boom_line Fixtures.empty_root)
                 Fixtures.me Fixtures.pkg (Fixtures.start Fixtures.empty_root))
    by (repeat split).
  split; [exact Hm|].
  apply (X9_error_text_trimmed
           (Fixtures.tool 1 Fixtures.boom_line Fixtures.empty_root)
           Fixtures.me Fixtures.pkg (Fixtures.start Fixtures.empty_root) Hm).
  discriminate.
Defined.

Lemma X10_blank_error_text_witness :
  cache_miss (Fixtures.tool 1 [10%N] Fixtures.empty_root)
    Fixtures.me Fixtures.pkg (Fixtures.start Fixtures.empty_root) /\
  forallb isspace (decode_replace [10%N]) = true /\
  fst (_run_apkeep (Fixtures.tool 1 [10%N] Fixtures.empty_root)
         Fixtures.me Fixtures.pkg (Fixtures.start Fixtures.empty_root)) =
    Raise (DownloadError (py "apkeep failed with exit code 1 for com.example.app: ")).
Proof.
  assert (Hm : cache_miss (Fixtures.tool 1 [10%N] Fixtures.empty_root)
                 Fixtures.me Fixtures.pkg (Fixtures.start Fixtures.empty_root))
    by (repeat split).
  split; [exact Hm|]. split; [reflexivity|].
  rewrite (X10_blank_error_text (Fixtures.tool 1 [10%N] Fixtures.empty_root)
             Fixtures.me Fixtures.pkg (Fixtures.start Fixtures.empty_root) Hm);
    [reflexivity | discriminate | discriminate | reflexivity].
Defined.

Lemma X12_anchored_identifier_witness :
  starts_with (py "/") Fixtures.anchored_pkg = true /\
  cache_miss (Fixtures.tool 0 [] Fixtures.anchored_root) Fixtures.me
    Fixtures.anchored_pkg (Fixtures.start Fixtures.empty_root) /\
  fst (_run_apkeep (Fixtures.tool 0 [] Fixtures.anchored_root) Fixtures.me
         Fixtures.anchored_pkg (Fixtures.start Fixtures.empty_root)) =
    Raise ValueError /\
  stat (Fixtures.tool 0 [] Fixtures.anchored_root)
    (root (snd (_run_apkeep (Fixtures.tool 0 [] Fixtures.anchored_root)
                  Fixtures.me Fixtures.anchored_pkg
                  (Fixtures.start Fixtures.empty_root))))
    (zip_path_of Fixtures.me Fixtures.anchored_pkg) =
    Some (File (Archive ZIP_DEFLATED [])) /\
  fst (_run_apkeep (Fixtures.tool 0 [] Fixtures.anchored_root) Fixtures.me
         Fixtures.anchored_pkg
         (snd (_run_apkeep (Fixtures.tool 0 [] Fixtures.anchored_root)
                 Fixtures.me Fixtures.anchored_pkg
                 (Fixtures.start Fixtures.empty_root)))) =
    Ok (name (zip_path_of Fixtures.me Fixtures.anchored_pkg)).
Proof.
  assert (Hm : cache_miss (Fixtures.tool 0 [] Fixtures.anchored_root) Fixtures.me
                 Fixtures.anchored_pkg (Fixtures.start Fixtures.empty_root))
    by (repeat split).
  split; [reflexivity|]. split; [exact Hm|].
  apply (X12_anchored_identifier (Fixtures.tool 0 [] Fixtures.anchored_root)
           Fixtures.me Fixtures.anchored_pkg (Fixtures.start Fixtures.empty_root)
           (py "base.apk", File (Bytes [1%N])) []
           eq_refl eq_refl Hm eq_refl eq_refl eq_refl eq_refl).
Defined.

Lemma X13_output_of_a_failed_run_witness :
  cache_miss (Fixtures.tool 1 Fixtures.boom_line Fixtures.apk_root)
    Fixtures.me Fixtures.pkg (Fixtures.start Fixtures.empty_root) /\
  fst (_run_apkeep (Fixtures.tool 1 Fixtures.boom_line Fixtures.apk_root)
         Fixtures.me Fixtures.pkg
         (snd (_run_apkeep (Fixtures.tool 1 Fixtures.boom_line Fixtures.apk_root)
                 Fixtures.me Fixtures.pkg (Fixtures.start Fixtures.empty_root)))) =
    Ok (py "com.example.app.apk").
Proof.
  assert (Hm : cache_miss (Fixtures.tool 1 Fixtures.boom_line Fixtures.apk_root)
                 Fixtures.me Fixtures.pkg (Fixtures.start Fixtures.empty_root))
    by (repeat split).
  split; [exact Hm|].
  assert (Hrc : returncode
                  (tool_run (Fixtures.tool 1 Fixtures.boom_line Fixtures.apk_root)
                     Fixtures.me Fixtures.pkg
                     (root (Fixtures.start Fixtures.empty_root))) <> 0%Z)
    by discriminate.
  rewrite (proj2 (X13_output_of_a_failed_run
                    (Fixtures.tool 1 Fixtures.boom_line Fixtures.apk_root)
                    Fixtures.me Fixtures.pkg (Fixtures.start Fixtures.empty_root)
                    Hm Hrc eq_refl)).
  reflexivity.
Defined.
